(** * Assessment scoring of Course Builder: [controllers/assessments.py]

    A shallow embedding of [store_score], of
    [AnswerHandler.update_assessment_transaction] and of the part of
    [AnswerHandler.post] that feeds it, followed by the properties of the
    scoring subsystem.

    Python integers are [Z].  The overall score is computed by Python in
    IEEE 754 binary64 arithmetic; it is embedded bit for bit with the
    executable specification of floating-point numbers of the standard
    library ([SpecFloat], precision 53, infinities at exponent 1024).
    Dictionaries are [gmap]s with string keys.  Exceptions are an explicit
    [outcome]; the datastore is an explicit state, and a transactional
    function runs in a small monad that records the datastore calls it
    issues. *)

From Stdlib Require Import ZArith List Bool Lia.
From Stdlib Require Import Floats.SpecFloat.
From stdpp Require Import base option gmap strings list.

Open Scope Z_scope.

(** ** Exceptions *)

Inductive exn :=
  | NotFoundError    (* unknown learner *)
  | DatastoreError   (* a datastore call (get, put, commit) raised *)
  | OverflowError    (* int too large for a float, or int(inf) *)
  | ValueError.      (* int(nan), malformed number *)

Inductive outcome (A : Type) :=
  | Ok (a : A)
  | Raise (e : exn).
Arguments Ok {A} a.
Arguments Raise {A} e.

#[global] Instance outcome_ret : MRet outcome := fun A a => Ok a.
#[global] Instance outcome_bind : MBind outcome := fun A B f m =>
  match m with
  | Ok a => f a
  | Raise e => Raise e
  end.

Definition is_ok {A} (o : outcome A) : bool :=
  match o with Ok _ => true | Raise _ => false end.

(** ** Python floats *)

Module PyFloat.

Definition prec : Z := 53.
Definition emax : Z := 1024.

(** The literals [0.3] and [0.7]: the doubles nearest to 3/10 and 7/10,
    [0x1.3333333333333p-2] and [0x1.6666666666666p-1]. *)
Definition float_0_3 : spec_float := S754_finite false 5404319552844595 (-54).
Definition float_0_7 : spec_float := S754_finite false 6305039478318694 (-53).

(** The conversion of an integer operand of a float operation: correctly
    rounded, [OverflowError] beyond the largest double. *)
Definition float_of_int (z : Z) : outcome spec_float :=
  match binary_normalize prec emax z 0 false with
  | S754_infinity _ => Raise OverflowError
  | f => Ok f
  end.

Definition mul (x y : spec_float) : spec_float := SFmul prec emax x y.
Definition add (x y : spec_float) : spec_float := SFadd prec emax x y.

(** [int(x)] on a float: truncation toward zero. *)
Definition int_of_float (x : spec_float) : outcome Z :=
  match x with
  | S754_zero _ => Ok 0
  | S754_finite s m e => Ok (cond_Zopp s (Z.shiftl (Zpos m) e))
  | S754_infinity _ => Raise OverflowError
  | S754_nan => Raise ValueError
  end.

End PyFloat.

(** ** JSON values: the answers payload *)

#[warnings="-register-all"]
Inductive json :=
  | JNull
  | JBool (b : bool)
  | JInt (z : Z)
  | JStr (s : string)
  | JList (l : list json)
  | JDict (l : list (string * json)).

(** ** Entities *)

(** [models.Student]: the learner profile.  The entity is stored under the
    learner's email as key name. *)
Record Student := {
  user_id : option string;
  scores : gmap string Z
}.

(** [models.StudentAnswersEntity], stored under the learner's user id. *)
Record StudentAnswersEntity := {
  updated_on : option Z;
  data : gmap string json
}.

(** The payload of a submission event, before serialization. *)
Record EventData := {
  ev_type : string;
  ev_values : json;
  ev_location : string
}.

(** [models.EventEntity]. *)
Record EventEntity := {
  source : string;
  event_user_id : string;
  recorded_on : Z;
  event_data : EventData
}.

Module Utils.

(** Modelled from the spec: [utils.get_score] ([models/utils.py] is
    outside this file's source).  The profile holds a mapping from
    assessment-type name to integer score; a type without a score gives
    [None]. *)
Definition get_score (student : Student) (assessment_type : string) : option Z :=
  scores student !! assessment_type.

(** Modelled from the spec: [utils.set_score] overwrites the score of one
    assessment type. *)
Definition set_score (student : Student) (assessment_type : string) (score : Z)
  : Student :=
  {| user_id := user_id student;
     scores := <[assessment_type := score]> (scores student) |}.

(** Modelled from the spec: [utils.set_answer] overwrites the payload of
    one assessment type in the answers record. *)
Definition set_answer (answers : StudentAnswersEntity) (assessment_type : string)
    (answer : json) : StudentAnswersEntity :=
  {| updated_on := updated_on answers;
     data := <[assessment_type := answer]> (data answers) |}.

End Utils.
Import Utils.

(** ** [store_score] *)

(** [int((0.3 * midcourse_score) + (0.7 * postcourse_score))]. *)
Definition overall_formula (midcourse_score postcourse_score : Z) : outcome Z :=
  fm ← PyFloat.float_of_int midcourse_score;
  fp ← PyFloat.float_of_int postcourse_score;
  PyFloat.int_of_float
    (PyFloat.add (PyFloat.mul PyFloat.float_0_3 fm) (PyFloat.mul PyFloat.float_0_7 fp)).

(** Python mutates [student] in place; here the updated profile is returned
    next to the result.  When the function raises, the caller never stores
    the profile, so nothing of it is returned. *)
Definition store_score (student : Student) (assessment_type : string) (score : Z)
  : outcome (Student * option string) :=
  let existing_score := get_score student assessment_type in
  let student :=
    match existing_score with
    | None => set_score student assessment_type score
    | Some e => if score >? e then set_score student assessment_type score else student
    end in
  if decide (assessment_type = "Fin") then
    let midcourse_score :=
      match get_score student "Mid" with
      | None => 0
      | Some m => m
      end in
    let postcourse_score :=
      match existing_score with
      | None => score
      | Some e => if score >? e then score else e
      end in
    overall_score ← overall_formula midcourse_score postcourse_score;
    let result := if 70 <=? overall_score then "pass" else "fail" in
    Ok (set_score student "overall_score" overall_score, Some result)
  else
    Ok (student, None).

(** ** The datastore and its transactions *)

Record Datastore := {
  students : gmap string Student;             (* by email *)
  answers_of : gmap string StudentAnswersEntity;  (* by user id *)
  events : list EventEntity
}.

(** The datastore calls a transactional function issues, in order. *)
Inductive Op :=
  | OpGetStudent (email : string)
  | OpGetAnswers (key_name : string)
  | OpPutStudent (email : string) (s : Student)
  | OpPutAnswers (key_name : string) (a : StudentAnswersEntity)
  | OpRecordEvent (e : EventEntity)
  | OpCommit
  | OpRollback.

(** What surrounds one call of the handler: the clock, and which datastore
    call, if any, raises ([fail_at = Some k]: the call number [k] of the
    transaction, counted from 0, the commit being the last one). *)
Record Env := {
  now : Z;
  fail_at : option nat
}.

(** The handler object: [self.get_user().user_id()]. *)
Record AnswerHandler := {
  handler_user_id : string
}.

Module Db.

(** The context of a running transaction: the state it reads, the calls
    issued so far, and how many of them there were. *)
Record Ctx := {
  snapshot : Datastore;
  oplog : list Op;
  calls : nat
}.

Definition Txn (A : Type) : Type := Env -> Ctx -> outcome A * Ctx.

Definition ret {A} (a : A) : Txn A := fun _ c => (Ok a, c).

Definition bind {A B} (m : Txn A) (f : A -> Txn B) : Txn B := fun env c =>
  match m env c with
  | (Ok a, c') => f a env c'
  | (Raise e, c') => (Raise e, c')
  end.

Definition lift {A} (o : outcome A) : Txn A := fun _ c => (o, c).

Definition get_now : Txn Z := fun env c => (Ok (now env), c).

(** One datastore call: it is recorded, and raises when the environment
    says so. *)
Definition call (op : Op) : Txn unit := fun env c =>
  let c' := {| snapshot := snapshot c; oplog := oplog c ++ [op];
               calls := S (calls c) |} in
  if decide (fail_at env = Some (calls c)) then (Raise DatastoreError, c')
  else (Ok tt, c').

Definition read {A} (f : Datastore -> A) : Txn A := fun _ c => (Ok (f (snapshot c)), c).

(** A write takes effect when the transaction commits. *)
Definition apply_op (ds : Datastore) (op : Op) : Datastore :=
  match op with
  | OpPutStudent email s =>
      {| students := <[email := s]> (students ds);
         answers_of := answers_of ds; events := events ds |}
  | OpPutAnswers key_name a =>
      {| students := students ds;
         answers_of := <[key_name := a]> (answers_of ds); events := events ds |}
  | OpRecordEvent e =>
      {| students := students ds;
         answers_of := answers_of ds; events := events ds ++ [e] |}
  | _ => ds
  end.

Record Result (A : Type) := {
  returned : outcome A;
  store : Datastore;
  trace : list Op
}.
Arguments returned {A} r.
Arguments store {A} r.
Arguments trace {A} r.

(** [@db.transactional(xg=True)], one attempt: the function runs against
    the state at its start; when it returns and the commit goes through,
    its writes are applied together, in order; when it raises, or the
    commit does, the transaction is rolled back and the exception
    propagates. *)
Definition transactional {A} (body : Txn A) (env : Env) (ds : Datastore) : Result A :=
  match body env {| snapshot := ds; oplog := []; calls := 0 |} with
  | (Ok a, c) =>
      if decide (fail_at env = Some (calls c)) then
        {| returned := Raise DatastoreError; store := ds;
           trace := oplog c ++ [OpRollback] |}
      else
        {| returned := Ok a; store := fold_left apply_op (oplog c) ds;
           trace := oplog c ++ [OpCommit] |}
  | (Raise e, c) =>
      {| returned := Raise e; store := ds; trace := oplog c ++ [OpRollback] |}
  end.

(** Modelled from the spec: [models/models.py] is outside this file's
    source.  Loading the profile of an unknown learner fails with
    [NotFoundError]. *)
Definition Student_get_by_email (email : string) : Txn Student :=
  bind (call (OpGetStudent email)) (fun _ =>
  bind (read (fun ds => students ds !! email)) (fun found =>
  match found with
  | Some student => ret student
  | None => lift (Raise NotFoundError)
  end)).

(** The datastore's [get_by_key_name] and [put]: one call each; a put is
    recorded and takes effect at the commit. *)
Definition StudentAnswersEntity_get_by_key_name (key_name : string)
  : Txn (option StudentAnswersEntity) :=
  bind (call (OpGetAnswers key_name)) (fun _ =>
  read (fun ds => answers_of ds !! key_name)).

Definition Student_put (email : string) (student : Student) : Txn unit :=
  call (OpPutStudent email student).

Definition StudentAnswersEntity_put (key_name : string) (answers : StudentAnswersEntity)
  : Txn unit :=
  call (OpPutAnswers key_name answers).

(** Modelled from the spec: [EventEntity.record] appends one event with
    its type, the learner, a timestamp and the payload. *)
Definition EventEntity_record (src : string) (user : string) (payload : EventData)
  : Txn unit :=
  bind get_now (fun t =>
  call (OpRecordEvent {| source := src; event_user_id := user;
                         recorded_on := t; event_data := payload |})).

End Db.

Notation "x <- m ;; k" := (Db.bind m (fun x => k))
  (at level 100, m at next level, right associativity, only parsing).
Notation "m ;;; k" := (Db.bind m (fun _ => k))
  (at level 100, right associativity, only parsing).

(** ** [AnswerHandler.update_assessment_transaction] *)

(** [not student.user_id]: [None] and the empty string are false. *)
Definition user_id_unset (u : option string) : bool :=
  match u with
  | None => true
  | Some s => bool_decide (s = "")
  end.

Definition update_assessment_transaction_body (self : AnswerHandler)
    (email assessment_type : string) (new_answers : json) (score : Z)
  : Db.Txn (Student * option string) :=
  student <- Db.Student_get_by_email email ;;
  let uid :=
    if user_id_unset (user_id student) then handler_user_id self
    else default "" (user_id student) in
  let student := {| user_id := Some uid; scores := scores student |} in
  found <- Db.StudentAnswersEntity_get_by_key_name uid ;;
  let answers :=
    match found with
    | Some a => a
    | None => {| updated_on := None; data := ∅ |}
    end in
  t <- Db.get_now ;;
  let answers := {| updated_on := Some t; data := data answers |} in
  let answers := set_answer answers assessment_type new_answers in
  r <- Db.lift (store_score student assessment_type score) ;;
  let student := fst r in
  let result := snd r in
  Db.Student_put email student ;;;
  Db.StudentAnswersEntity_put uid answers ;;;
  Db.EventEntity_record "submit-assessment" (handler_user_id self)
    {| ev_type := "assessment-" +:+ assessment_type;
       ev_values := new_answers;
       ev_location := "AnswerHandler" |} ;;;
  Db.ret (student, result).

Definition update_assessment_transaction (self : AnswerHandler)
    (email assessment_type : string) (new_answers : json) (score : Z)
    (env : Env) (ds : Datastore)
  : Db.Result (Student * option string) :=
  Db.transactional
    (update_assessment_transaction_body self email assessment_type new_answers score)
    env ds.

(** ** [AnswerHandler.post] *)

(** What [post] reads from the request and from the session. *)
Record Request := {
  req_enrolled : option string;   (* key name of the enrolled student, if any *)
  req_xsrf_ok : bool;
  req_assessment_type : string;
  req_answers : string;
  req_score : string
}.

(** The template values of the confirmation page. *)
Record Confirmation := {
  tv_assessment : string;
  tv_result : option string;
  tv_student_score : option Z
}.

Section Post.

(** [transforms.loads], and [int(round(float(.)))] on the text of the
    score: both may raise. *)
Variable loads : string -> outcome json.
Variable int_round_float : string -> outcome Z.

(** [Ok None] is an early [return]: nothing is rendered.  The progress
    tracker and the rendering are collaborators outside the scoring
    core. *)
Definition post (self : AnswerHandler) (req : Request) (env : Env) (ds : Datastore)
  : outcome (option Confirmation) * Datastore :=
  match req_enrolled req with
  | None => (Ok None, ds)
  | Some key_name =>
      if negb (req_xsrf_ok req) then (Ok None, ds)
      else
        let assessment_type := req_assessment_type req in
        if decide (assessment_type = "") then (Ok None, ds)
        else
          let answers :=
            if decide (req_answers req = "") then Ok (JList [])
            else loads (req_answers req) in
          match answers with
          | Raise e => (Raise e, ds)
          | Ok answers =>
              match int_round_float (req_score req) with
              | Raise e => (Raise e, ds)
              | Ok score =>
                  let r := update_assessment_transaction self key_name
                             assessment_type answers score env ds in
                  match Db.returned r with
                  | Raise e => (Raise e, Db.store r)
                  | Ok (student, result) =>
                      (Ok (Some {| tv_assessment := assessment_type;
                                   tv_result := result;
                                   tv_student_score :=
                                     get_score student "overall_score" |}),
                       Db.store r)
                  end
              end
          end
  end.

(** A run of requests, one after the other; it stops at the first one
    that raises. *)
Fixpoint post_all (self : AnswerHandler) (reqs : list (Env * Request)) (ds : Datastore)
  : outcome Datastore :=
  match reqs with
  | [] => Ok ds
  | (env, req) :: rest =>
      match post self req env ds with
      | (Ok _, ds') => post_all self rest ds'
      | (Raise e, _) => Raise e
      end
  end.

End Post.

(** ** Vocabulary of the properties *)

(** The score a learner has on record for an assessment type. *)
Definition stored_score (ds : Datastore) (email assessment_type : string) : option Z :=
  students ds !! email ≫= fun student => get_score student assessment_type.

(** The payload a learner has on record for an assessment type. *)
Definition stored_answer (ds : Datastore) (key_name assessment_type : string)
  : option json :=
  answers_of ds !! key_name ≫= fun a => data a !! assessment_type.

(** The update rule in the words of the specification: without a score on
    record the candidate is stored, otherwise the larger of the two. *)
Definition update_rule (existing : option Z) (candidate : Z) : Z :=
  match existing with
  | None => candidate
  | Some e => Z.max e candidate
  end.

Definition best_of (prior : option Z) (candidates : list Z) : option Z :=
  fold_left (fun acc s => Some (update_rule acc s)) candidates prior.

(** The profile and the key the transaction works with, once the missing
    user id is filled in. *)
Definition effective_user_id (self : AnswerHandler) (student : Student) : string :=
  if user_id_unset (user_id student) then handler_user_id self
  else default "" (user_id student).

Definition with_user_id (self : AnswerHandler) (student : Student) : Student :=
  {| user_id := Some (effective_user_id self student); scores := scores student |}.

(** The answers record and the event one submission writes. *)
Definition submitted_answers (found : option StudentAnswersEntity) (t : Z)
    (assessment_type : string) (new_answers : json) : StudentAnswersEntity :=
  set_answer {| updated_on := Some t; data := data (default {| updated_on := None; data := ∅ |} found) |}
    assessment_type new_answers.

Definition submission_event (self : AnswerHandler) (t : Z)
    (assessment_type : string) (new_answers : json) : EventEntity :=
  {| source := "submit-assessment"; event_user_id := handler_user_id self;
     recorded_on := t;
     event_data := {| ev_type := "assessment-" +:+ assessment_type;
                      ev_values := new_answers;
                      ev_location := "AnswerHandler" |} |}.

(** What a submission that commits leaves in the datastore, and the calls
    it has issued. *)
Definition committed (self : AnswerHandler) (email assessment_type : string)
    (new_answers : json) (env : Env) (ds : Datastore) (st st' : Student) : Datastore :=
  let uid := effective_user_id self st in
  {| students := <[email := st']> (students ds);
     answers_of :=
       <[uid := submitted_answers (answers_of ds !! uid) (now env)
                  assessment_type new_answers]> (answers_of ds);
     events := events ds ++ [submission_event self (now env) assessment_type new_answers] |}.

Definition committed_trace (self : AnswerHandler) (email assessment_type : string)
    (new_answers : json) (env : Env) (ds : Datastore) (st st' : Student) : list Op :=
  let uid := effective_user_id self st in
  [ OpGetStudent email; OpGetAnswers uid; OpPutStudent email st';
    OpPutAnswers uid (submitted_answers (answers_of ds !! uid) (now env)
                        assessment_type new_answers);
    OpRecordEvent (submission_event self (now env) assessment_type new_answers);
    OpCommit ].

(** Whether a trace holds a commit. *)
Definition is_commit (op : Op) : bool :=
  match op with OpCommit => true | _ => false end.

Definition commits (tr : list Op) : bool := existsb is_commit tr.


(** The overall score in the words of the specification:
    [floor(0.3 * mid + 0.7 * postCourse)], in exact arithmetic. *)
Definition exact_overall (mid post : Z) : Z := (3 * mid + 7 * post) / 10.

(** [v] is the maximum of [l]. *)
Definition is_maximum (v : Z) (l : list Z) : Prop :=
  v ∈ l /\ Forall (fun s => s <= v) l.

(** The scores a run of requests submits, after rounding. *)
Definition rounded_scores (int_round_float : string -> outcome Z)
    (reqs : list (Env * Request)) : list Z :=
  omap (fun er => match int_round_float (req_score er.2) with
                  | Ok s => Some s
                  | Raise _ => None
                  end) reqs.

(** A run of submissions of one learner, whatever their outcomes. *)
Record Submission := {
  sub_env : Env;
  sub_type : string;
  sub_answers : json;
  sub_score : Z
}.

Definition submit (self : AnswerHandler) (email : string) (ds : Datastore)
    (sub : Submission) : Datastore :=
  Db.store (update_assessment_transaction self email (sub_type sub) (sub_answers sub)
              (sub_score sub) (sub_env sub) ds).

Definition submit_all (self : AnswerHandler) (email : string) (subs : list Submission)
    (ds : Datastore) : Datastore :=
  fold_left (submit self email) subs ds.

(** Scores as percentages. *)
Definition percent (z : Z) : Prop := 0 <= z <= 100.

(** The order on scores on record: no score is below every score. *)
Definition score_le (a b : option Z) : Prop :=
  match a, b with
  | None, _ => True
  | Some x, Some y => x <= y
  | Some _, None => False
  end.

(** A profile as submissions of natural scores leave it: the mid-course
    and final scores are natural numbers, and an overall score comes with a
    final score and is the value of the formula on a mid-course score and a
    final score that are at most the present ones. *)
Definition consistent (st : Student) : Prop :=
  (forall m, get_score st "Mid" = Some m -> 0 <= m) /\
  (forall f, get_score st "Fin" = Some f -> 0 <= f) /\
  (forall ov, get_score st "overall_score" = Some ov ->
     exists m0 f0 f,
       get_score st "Fin" = Some f /\
       0 <= m0 <= default 0 (get_score st "Mid") /\
       0 <= f0 <= f /\
       overall_formula m0 f0 = Ok ov).

(** Whether the computed overall score is the exact quotient of
    [3 * mid + 7 * post] by 10, or one below it where that sum is a multiple
    of 10. *)
Definition formula_close (m p : Z) : bool :=
  match overall_formula m p with
  | Ok v => ((3 * m + 7 * p - 1) / 10 <=? v) && (v <=? (3 * m + 7 * p) / 10)
  | Raise _ => false
  end.

(** ** The values of floats *)

(** Floats are compared through their values scaled by [2 ^ scale], which
    are integers for every exponent the format and its products reach. *)
Definition scale : Z := 1200.

Definition val (m : positive) (e : Z) : Z := Zpos m * 2 ^ (e + scale).

(** The value of a float that is zero or positive. *)
Definition fval (f : spec_float) (Y : Z) : Prop :=
  match f with
  | S754_zero _ => Y = 0
  | S754_finite false m e => -1074 <= e /\ Y = val m e
  | _ => False
  end.

(** [Y] is a multiple of [Q] nearest to [X], and the even one of two. *)
Definition nearest (Q X Y : Z) : Prop :=
  (Q | Y) /\
  2 * Z.abs (Y - X) <= Q /\
  (2 * Z.abs (Y - X) = Q -> Z.even (Y / Q) = true).

(** [Y] is [X] rounded to the format: to the nearest multiple of the
    quantum of the binade of [X]. *)
Definition rounded (X Y : Z) : Prop :=
  (X = 0 /\ Y = 0) \/
  (0 < X /\ exists E,
     2 ^ (E - 1 + scale) <= X < 2 ^ (E + scale) /\
     nearest (2 ^ (fexp PyFloat.prec PyFloat.emax E + scale)) X Y).

(** The value the formula computes, step by step: the two scores as
    floats, the two products, their sum, and its integer part. *)
Definition formula_value (m p v : Z) : Prop :=
  exists Ym Yp Xa Ya Xb Yb Ys,
    rounded (m * 2 ^ scale) Ym /\ rounded (p * 2 ^ scale) Yp /\
    rounded Xa Ya /\ Xa * 2 ^ 54 = 5404319552844595 * Ym /\
    rounded Xb Yb /\ Xb * 2 ^ 53 = 6305039478318694 * Yp /\
    rounded (Ya + Yb) Ys /\
    v = Ys / 2 ^ scale.

(** Half of [2 ^ k], for the round bit of a shift by [k] places. *)
Definition half (k : Z) : Z := 2 ^ k / 2.

(** [rec] is [X] shifted right by [k] places. *)
Definition shifted (X k : Z) (rec : shr_record) : Prop :=
  0 <= k /\ 0 <= shr_m rec /\
  exists t,
    X = shr_m rec * 2 ^ k + (if shr_r rec then half k else 0) + t /\
    0 <= t /\ (t < half k \/ (k = 0 /\ t = 0)) /\
    (shr_r rec = true -> 1 <= k) /\
    (shr_s rec = true <-> t <> 0).

(** [N] is [X / 2 ^ k] rounded to nearest, ties to even. *)
Definition rne (k X N : Z) : Prop :=
  0 <= N /\
  2 * Z.abs (N * 2 ^ k - X) <= 2 ^ k /\
  (2 * Z.abs (N * 2 ^ k - X) = 2 ^ k -> Z.even N = true).

(** ** Sample data *)

Definition alice : string := "alice@example.com".

Definition alice_handler : AnswerHandler := {| handler_user_id := "uid-alice" |}.

(** An environment in which no datastore call raises. *)
Definition quiet (t : Z) : Env := {| now := t; fail_at := None |}.

(** A datastore with one enrolled learner and the given scores. *)
Definition store_with (sc : gmap string Z) : Datastore :=
  {| students := {[ alice := {| user_id := Some "uid-alice"; scores := sc |} ]};
     answers_of := ∅;
     events := [] |}.

(** A submission in a quiet environment. *)
Definition submission (t : string) (score : Z) : Submission :=
  {| sub_env := quiet 0; sub_type := t; sub_answers := JList []; sub_score := score |}.

(** A request of the enrolled learner. *)
Definition request (t answers score : string) : Request :=
  {| req_enrolled := Some alice; req_xsrf_ok := true;
     req_assessment_type := t; req_answers := answers; req_score := score |}.

(** Stand-ins for the JSON parser and for the rounding of the score text,
    defined on the few texts the examples use. *)
Definition sample_loads (s : string) : outcome json := Ok (JList [JStr s]).

Definition sample_round (s : string) : outcome Z :=
  if decide (s = "59.6") then Ok 60
  else if decide (s = "90") then Ok 90
  else if decide (s = "70.4") then Ok 70
  else Raise ValueError.

(** ** Runs of submissions by any learners *)

(** One call of the transaction: who is logged in, whose profile, what is
    submitted. *)
Record Call := {
  call_self : AnswerHandler;
  call_email : string;
  call_sub : Submission
}.

Definition call_result (ds : Datastore) (c : Call) : outcome (Student * option string) :=
  Db.returned (update_assessment_transaction (call_self c) (call_email c)
                 (sub_type (call_sub c)) (sub_answers (call_sub c))
                 (sub_score (call_sub c)) (sub_env (call_sub c)) ds).

Definition perform (ds : Datastore) (c : Call) : Datastore :=
  submit (call_self c) (call_email c) ds (call_sub c).

Definition perform_all (calls : list Call) (ds : Datastore) : Datastore :=
  fold_left perform calls ds.

(** The event a call records when it commits. *)
Definition call_event (c : Call) : EventEntity :=
  submission_event (call_self c) (now (sub_env (call_sub c)))
    (sub_type (call_sub c)) (sub_answers (call_sub c)).

(** A second learner, and a datastore with both, the second one without a
    user id on the profile. *)
Definition bob : string := "bob@example.com".

Definition bob_handler : AnswerHandler := {| handler_user_id := "uid-bob" |}.

Definition two_learners : Datastore :=
  {| students := {[ alice := {| user_id := Some "uid-alice"; scores := {[ "Mid" := 80 ]} |};
                    bob := {| user_id := None; scores := ∅ |} ]};
     answers_of := {[ "uid-alice" := {| updated_on := Some 5;
                                          data := {[ "Mid" := JStr "old" ]} |} ]};
     events := [] |}.

Definition call (self : AnswerHandler) (email t : string) (answers : json) (score : Z)
  : Call :=
  {| call_self := self; call_email := email;
     call_sub := {| sub_env := quiet 9; sub_type := t; sub_answers := answers;
                    sub_score := score |} |}.

(** * Properties *)

(** ** The error monad and the transaction monad *)

Lemma outcome_bind_ok {A B} (m : outcome A) (f : A -> outcome B) (b : B) :
  m ≫= f = Ok b -> exists a, m = Ok a /\ f a = Ok b.
Proof. destruct m as [a|e]; simpl; [eauto | discriminate]. Qed.

(** ** The transaction, case by case *)

Ltac txn_simpl :=
  cbn [Db.snapshot Db.oplog Db.calls Db.returned Db.store Db.trace fst snd app].

Ltac txn_raised :=
  left; eexists;
  split; [reflexivity | split; [reflexivity | split; [reflexivity | split; [reflexivity |]]]];
  first
    [ left; eexists; split; [eassumption | split; [lia | reflexivity]]
    | right; left; split; [first [assumption | reflexivity] | reflexivity]
    | right; right; eexists; split; first [eassumption | reflexivity] ].

Ltac txn_fault k :=
  destruct (decide (fail_at _ = Some k)); txn_simpl; [txn_raised|].

Lemma txn_cases self email t ans sc env ds :
  let r := update_assessment_transaction self email t ans sc env ds in
  (exists e, Db.returned r = Raise e /\ Db.store r = ds /\
     last (Db.trace r) = Some OpRollback /\ commits (Db.trace r) = false /\
     ((exists k, fail_at env = Some k /\ (k < 6)%nat /\ e = DatastoreError) \/
      (students ds !! email = None /\ e = NotFoundError) \/
      (exists st, students ds !! email = Some st /\
         store_score (with_user_id self st) t sc = Raise e))) \/
  (exists st st' res,
     students ds !! email = Some st /\
     store_score (with_user_id self st) t sc = Ok (st', res) /\
     Db.returned r = Ok (st', res) /\
     Db.store r = committed self email t ans env ds st st' /\
     Db.trace r = committed_trace self email t ans env ds st st' /\
     (forall k, fail_at env = Some k -> (6 <= k)%nat)).
Proof.
  cbv zeta.
  unfold update_assessment_transaction, Db.transactional,
    update_assessment_transaction_body, Db.Student_get_by_email,
    Db.StudentAnswersEntity_get_by_key_name, Db.Student_put,
    Db.StudentAnswersEntity_put, Db.EventEntity_record,
    Db.bind, Db.call, Db.read, Db.lift, Db.ret, Db.get_now.
  txn_simpl.
  txn_fault 0%nat.
  destruct (students ds !! email) as [st|] eqn:Hst; txn_simpl; [|txn_raised].
  fold (effective_user_id self st).
  change {| user_id := Some (effective_user_id self st); scores := scores st |}
    with (with_user_id self st).
  txn_fault 1%nat.
  destruct (store_score (with_user_id self st) t sc) as [[st' res]|ex] eqn:Hsc;
    txn_simpl; [|txn_raised].
  txn_fault 2%nat. txn_fault 3%nat. txn_fault 4%nat. txn_fault 5%nat.
  right. exists st, st', res. repeat split; try done.
  intros k Hk. do 6 (destruct k as [|k]; [congruence|]). lia.
Qed.

Lemma txn_succeeds self email t ans sc env ds st st' res :
  students ds !! email = Some st ->
  fail_at env = None ->
  store_score (with_user_id self st) t sc = Ok (st', res) ->
  let r := update_assessment_transaction self email t ans sc env ds in
  Db.returned r = Ok (st', res) /\
  Db.store r = committed self email t ans env ds st st' /\
  Db.trace r = committed_trace self email t ans env ds st st'.
Proof.
  intros Hst Hnf Hsc r.
  destruct (txn_cases self email t ans sc env ds)
    as [(e & _ & _ & _ & _ & Hwhy) | (st0 & st0' & res0 & Hst0 & Hsc0 & Hr & Hs & Ht & _)].
  - destruct Hwhy as [(k & Hk & _) | [(Hno & _) | (st0 & Hst0 & Hsc0)]];
      congruence.
  - assert (st0 = st) by congruence; subst st0.
    assert (st0' = st' /\ res0 = res) as [-> ->] by (split; congruence).
    done.
Qed.

Lemma txn_ok self email t ans sc env ds st' res :
  Db.returned (update_assessment_transaction self email t ans sc env ds) = Ok (st', res) ->
  exists st,
    students ds !! email = Some st /\
    store_score (with_user_id self st) t sc = Ok (st', res) /\
    Db.store (update_assessment_transaction self email t ans sc env ds)
      = committed self email t ans env ds st st' /\
    Db.trace (update_assessment_transaction self email t ans sc env ds)
      = committed_trace self email t ans env ds st st'.
Proof.
  intros Hok.
  destruct (txn_cases self email t ans sc env ds)
    as [(e & Hr & _) | (st0 & st0' & res0 & Hst0 & Hsc0 & Hr & Hs & Ht & _)].
  - cbv zeta in Hr. congruence.
  - cbv zeta in Hr, Hs, Ht. rewrite Hok in Hr. injection Hr as <- <-. eauto.
Qed.

Lemma txn_raise self email t ans sc env ds e :
  Db.returned (update_assessment_transaction self email t ans sc env ds) = Raise e ->
  Db.store (update_assessment_transaction self email t ans sc env ds) = ds /\
  last (Db.trace (update_assessment_transaction self email t ans sc env ds))
    = Some OpRollback /\
  commits (Db.trace (update_assessment_transaction self email t ans sc env ds)) = false.
Proof.
  intros Hr.
  destruct (txn_cases self email t ans sc env ds)
    as [(e' & _ & Hs & Ht & Hc & _) | (st0 & st0' & res0 & _ & _ & Hr' & _)].
  - done.
  - cbv zeta in Hr'. congruence.
Qed.

(** ** [store_score], equationally *)

Lemma get_set_score_eq st t v : get_score (set_score st t v) t = Some v.
Proof. unfold get_score, set_score; cbn. apply lookup_insert_eq. Qed.

Lemma get_set_score_ne st t k v : t <> k -> get_score (set_score st t v) k = get_score st k.
Proof. intros Hne. unfold get_score, set_score; cbn. by apply lookup_insert_ne. Qed.

Lemma set_score_same st t v : get_score st t = Some v -> set_score st t v = st.
Proof.
  destruct st as [u sc]. unfold get_score, set_score; cbn. intros Hv.
  f_equal. by apply insert_id.
Qed.

Lemma set_score_twice st t v w : set_score (set_score st t v) t w = set_score st t w.
Proof. unfold set_score; cbn. f_equal. apply insert_insert_eq. Qed.

Lemma update_rule_ge existing s : s <= update_rule existing s.
Proof. destruct existing; cbn; lia. Qed.

Lemma update_rule_idem existing s :
  update_rule (Some (update_rule existing s)) s = update_rule existing s.
Proof. destruct existing; cbn; lia. Qed.

Lemma step4_eq st t s :
  match get_score st t with
  | None => set_score st t s
  | Some e => if s >? e then set_score st t s else st
  end = set_score st t (update_rule (get_score st t) s).
Proof.
  destruct (get_score st t) as [e|] eqn:He; cbn; [|done].
  destruct (Z.gtb_spec s e).
  - by rewrite Z.max_r by lia.
  - rewrite Z.max_l by lia. symmetry. by apply set_score_same.
Qed.

Lemma postcourse_eq (existing : option Z) s :
  match existing with
  | None => s
  | Some e => if s >? e then s else e
  end = update_rule existing s.
Proof.
  destruct existing as [e|]; cbn; [|done].
  destruct (Z.gtb_spec s e); lia.
Qed.

Lemma store_score_eq st t s :
  store_score st t s =
    if decide (t = "Fin") then
      overall_formula (default 0 (get_score st "Mid")) (update_rule (get_score st "Fin") s)
      ≫= fun ov =>
        Ok (set_score (set_score st "Fin" (update_rule (get_score st "Fin") s))
              "overall_score" ov,
            Some (if 70 <=? ov then "pass" else "fail"))
    else Ok (set_score st t (update_rule (get_score st t) s), None).
Proof.
  unfold store_score. rewrite step4_eq, postcourse_eq.
  destruct (decide (t = "Fin")) as [->|]; [|done].
  rewrite get_set_score_ne by done.
  by destruct (get_score st "Mid").
Qed.

Lemma store_score_type st t s st' r :
  store_score st t s = Ok (st', r) ->
  get_score st' t = Some (update_rule (get_score st t) s).
Proof.
  rewrite store_score_eq. destruct (decide (t = "Fin")) as [->|Hne].
  - intros (ov & _ & [= <- _])%outcome_bind_ok.
    rewrite get_set_score_ne by done. apply get_set_score_eq.
  - intros [= <- _]. apply get_set_score_eq.
Qed.

Lemma store_score_user_id st t s st' r :
  store_score st t s = Ok (st', r) -> user_id st' = user_id st.
Proof.
  rewrite store_score_eq. destruct (decide (t = "Fin")) as [->|Hne].
  - by intros (ov & _ & [= <- _])%outcome_bind_ok.
  - by intros [= <- _].
Qed.

Lemma store_score_frame st t s st' r k :
  store_score st t s = Ok (st', r) ->
  k <> t -> k <> "overall_score" ->
  get_score st' k = get_score st k.
Proof.
  rewrite store_score_eq. intros H Hk Hov.
  destruct (decide (t = "Fin")) as [->|Hne].
  - apply outcome_bind_ok in H as (ov & _ & [= <- _]).
    by rewrite !get_set_score_ne by done.
  - injection H as <- _. by rewrite get_set_score_ne by done.
Qed.

Lemma store_score_other st t s :
  t <> "Fin" ->
  store_score st t s = Ok (set_score st t (update_rule (get_score st t) s), None).
Proof. intros Hne. rewrite store_score_eq. by destruct (decide (t = "Fin")). Qed.

(** ** The formula on percentages *)

Lemma formula_close_on_percents :
  forallb (fun m => forallb (fun p => formula_close m p) (seqZ 0 101)) (seqZ 0 101) = true.
Proof. vm_compute. reflexivity. Qed.

Lemma forallb_seqZ_square (f : Z -> Z -> bool) (a n : Z) :
  forallb (fun m => forallb (fun p => f m p) (seqZ a n)) (seqZ a n) = true ->
  forall m p, a <= m < a + n -> a <= p < a + n -> f m p = true.
Proof.
  intros H m p Hm Hp.
  apply Is_true_true, forallb_True in H. rewrite Forall_forall in H.
  specialize (H m ltac:(by apply elem_of_seqZ)).
  apply forallb_True in H. rewrite Forall_forall in H.
  apply Is_true_true. apply H. by apply elem_of_seqZ.
Qed.

Lemma overall_formula_percent m p :
  percent m -> percent p ->
  exists v, overall_formula m p = Ok v /\
            (3 * m + 7 * p - 1) / 10 <= v <= (3 * m + 7 * p) / 10.
Proof.
  intros Hm Hp.
  pose proof (forallb_seqZ_square formula_close 0 101
                formula_close_on_percents m p
                ltac:(unfold percent in Hm; lia) ltac:(unfold percent in Hp; lia)) as H.
  unfold formula_close in H.
  destruct (overall_formula m p) as [v|e]; [|done].
  apply andb_prop in H as [H1 H2]. exists v. split; [done|lia].
Qed.

(** The spec's own examples come out as it says (mid 80 with final 60 and
    90), but a learner with mid 7 and final 97 gets 69, one below the exact
    value 70, and with it the verdict "fail". *)
Lemma overall_formula_examples :
  overall_formula 80 60 = Ok 66 /\ overall_formula 80 90 = Ok 87 /\
  overall_formula 7 97 = Ok 69 /\ exact_overall 7 97 = 70.
Proof. vm_compute. repeat split; reflexivity. Qed.

(** ** Rounding to binary64 is monotone *)

Lemma digits2_pos_bounds (m : positive) :
  2 ^ (Zpos (digits2_pos m) - 1) <= Zpos m < 2 ^ Zpos (digits2_pos m).
Proof.
  induction m as [m IH|m IH|]; cbn [digits2_pos].
  - rewrite Pos2Z.inj_succ.
    replace (Z.succ (Z.pos (digits2_pos m)) - 1) with (Z.succ (Z.pos (digits2_pos m) - 1)) by lia.
    rewrite !Z.pow_succ_r by lia. lia.
  - rewrite Pos2Z.inj_succ.
    replace (Z.succ (Z.pos (digits2_pos m)) - 1) with (Z.succ (Z.pos (digits2_pos m) - 1)) by lia.
    rewrite !Z.pow_succ_r by lia. lia.
  - cbn. lia.
Qed.

Lemma fexp_eq e : fexp PyFloat.prec PyFloat.emax e = Z.max (e - 53) (-1074).
Proof. reflexivity. Qed.

Lemma iter_pos_invariant {A} (f : A -> A) (P : Z -> A -> Prop) :
  (forall k x, P k x -> P (k + 1) (f x)) ->
  forall n k x, P k x -> P (k + Zpos n) (SpecFloat.iter_pos f n x).
Proof.
  intros Hstep. induction n as [n IH|n IH|]; intros k x Hx; cbn [SpecFloat.iter_pos].
  - replace (k + Z.pos n~1) with ((k + 1 + Z.pos n) + Z.pos n) by lia.
    apply IH, IH, Hstep, Hx.
  - replace (k + Z.pos n~0) with ((k + Z.pos n) + Z.pos n) by lia.
    apply IH, IH, Hx.
  - by apply Hstep.
Qed.


Lemma half_0 : half 0 = 0.
Proof. reflexivity. Qed.

Lemma half_pos k : 1 <= k -> 2 * half k = 2 ^ k /\ 1 <= half k.
Proof.
  intros Hk. unfold half.
  assert (2 ^ k = 2 ^ (k - 1) * 2) as ->
    by (rewrite Z.mul_comm, <- Z.pow_succ_r by lia; f_equal; lia).
  rewrite Z.div_mul by lia.
  pose proof (Z.pow_pos_nonneg 2 (k - 1)). lia.
Qed.

Lemma half_succ k : 0 <= k -> half (k + 1) = 2 ^ k.
Proof.
  intros Hk. unfold half. rewrite Z.pow_add_r by lia.
  change (2 ^ 1) with 2. by rewrite Z.div_mul by lia.
Qed.


Lemma shifted_0 X : 0 <= X -> shifted X 0 {| shr_m := X; shr_r := false; shr_s := false |}.
Proof.
  intros HX. split; [done|]. split; [done|]. exists 0. cbn.
  repeat split; try done; try lia.
Qed.

Lemma shifted_shr_1 X k rec : shifted X k rec -> shifted X (k + 1) (shr_1 rec).
Proof.
  intros (Hk & Hm & t & HX & Ht0 & Ht & Hr & Hs).
  destruct rec as [m r s]. cbn in Hm, HX, Hr, Hs.
  assert (exists m' (b : bool), m = 2 * m' + (if b then 1 else 0) /\ 0 <= m' /\
            shr_1 {| shr_m := m; shr_r := r; shr_s := s |}
            = {| shr_m := m'; shr_r := b; shr_s := r || s |}) as (m' & b & Hm' & Hm'0 & ->).
  { destruct m as [|[p|p|]|p]; cbn.
    - exists 0, false. done.
    - exists (Zpos p), true. split; [lia|]. done.
    - exists (Zpos p), false. split; [lia|]. done.
    - exists 0, true. done.
    - lia. }
  split; [lia|]. split; [done|]. cbn.
  exists ((if r then half k else 0) + t).
  rewrite half_succ by done. rewrite Z.pow_add_r by lia. change (2 ^ 1) with 2.
  split; [destruct b; lia|].
  assert (0 <= half k) as Hh by (unfold half; apply Z.div_pos; [apply Z.pow_nonneg|]; lia).
  split; [destruct r; lia|].
  split.
  { left. destruct Ht as [Ht|[-> ->]].
    - assert (1 <= k).
      { destruct (decide (k = 0)) as [->|]; [rewrite half_0 in Ht; lia | lia]. }
      destruct (half_pos k) as [H2 _]; [done|]. destruct r; lia.
    - destruct r; [specialize (Hr eq_refl); lia|]. cbn. lia. }
  split; [destruct b; lia|].
  destruct r; cbn.
  - split; [|done]. intros _. specialize (Hr eq_refl).
    destruct (half_pos k) as [_ H1]; [done|]. lia.
  - rewrite Hs. split; intros; lia.
Qed.

Lemma shr_shifted X e n :
  0 <= X ->
  snd (shr {| shr_m := X; shr_r := false; shr_s := false |} e n) = e + Z.max 0 n /\
  shifted X (Z.max 0 n) (fst (shr {| shr_m := X; shr_r := false; shr_s := false |} e n)).
Proof.
  intros HX. destruct n as [|p|p]; cbn [shr fst snd].
  - split; [lia|]. by apply shifted_0.
  - split; [lia|]. replace (Z.max 0 (Z.pos p)) with (0 + Z.pos p) by lia.
    apply (iter_pos_invariant shr_1 (shifted X)).
    + apply shifted_shr_1.
    + by apply shifted_0.
  - split; [lia|]. by apply shifted_0.
Qed.


Lemma round_nearest_even_rne X k rec :
  shifted X k rec ->
  rne k X (round_nearest_even (shr_m rec) (loc_of_shr_record rec)).
Proof.
  intros (Hk & Hm & t & HX & Ht0 & Ht & Hr & Hs).
  destruct rec as [m r s]. cbn in Hm, HX, Hr, Hs. cbn [shr_m loc_of_shr_record].
  assert (0 < 2 ^ k) as Hp by (by apply Z.pow_pos_nonneg).
  assert (k = 0 /\ half k = 0 \/ 1 <= k /\ 2 * half k = 2 ^ k) as Hh.
  { destruct (decide (k = 0)) as [->|]; [left; done|right].
    split; [lia|]. apply half_pos. lia. }
  destruct r, s; cbn [round_nearest_even].
  - (* above the middle *)
    destruct Hs as [Hs _]. specialize (Hs eq_refl). specialize (Hr eq_refl).
    unfold rne. split; [lia|]. split; nia.
  - (* the middle *)
    specialize (Hr eq_refl).
    assert (t = 0) as -> by (destruct (decide (t = 0)); [done|]; by apply Hs in n).
    destruct (Z.even m) eqn:He; unfold rne.
    + split; [lia|]. split; [nia|done].
    + split; [lia|]. split; [nia|]. intros _.
      rewrite Z.even_add, He. done.
  - (* below the middle *)
    destruct Hs as [Hs _]. specialize (Hs eq_refl).
    unfold rne. split; [lia|]. split; nia.
  - (* exact *)
    assert (t = 0) as -> by (destruct (decide (t = 0)); [done|]; by apply Hs in n).
    unfold rne. split; [lia|]. split; nia.
Qed.

Lemma shifted_exact N k rec :
  shifted N k rec -> (k = 0 \/ (k = 1 /\ Z.even N = true)) ->
  shr_m rec * 2 ^ k = N.
Proof.
  intros (Hk & Hm & t & HX & Ht0 & Ht & Hr & Hs) [->|[-> Hev]].
  - rewrite half_0 in *. destruct (shr_r rec); [specialize (Hr eq_refl); lia|]. lia.
  - change (half 1) with 1 in *. change (2 ^ 1) with 2 in *.
    assert (t = 0) as -> by lia.
    destruct (shr_r rec); [|lia].
    rewrite HX in Hev. rewrite Z.add_0_r, Z.even_add, Z.even_mul in Hev.
    cbn in Hev. by rewrite orb_true_r in Hev.
Qed.

Lemma rne_exact X N : rne 0 X N -> N = X.
Proof. unfold rne. change (2 ^ 0) with 1. lia. Qed.

(** Rounding a positive number [m * 2 ^ ex] to the format. *)
Lemma binary_round_aux_spec (m : positive) (ex : Z) :
  let q := fexp PyFloat.prec PyFloat.emax (Zpos (digits2_pos m) + ex) in
  let e1 := Z.max ex q in
  exists N,
    rne (e1 - ex) (Zpos m) N /\
    ((N = 0 /\ binary_round_aux PyFloat.prec PyFloat.emax false (Zpos m) ex loc_Exact = S754_zero false) \/
     (exists m' e',
        Zpos m' * 2 ^ (e' - e1) = N /\ e1 <= e' /\
        (binary_round_aux PyFloat.prec PyFloat.emax false (Zpos m) ex loc_Exact = S754_finite false m' e'
           /\ e' <= 971 \/
         binary_round_aux PyFloat.prec PyFloat.emax false (Zpos m) ex loc_Exact = S754_infinity false))).
Proof.
  intros q e1.
  pose proof (digits2_pos_bounds m) as Hd.
  unfold binary_round_aux, shr_fexp. cbn [shr_record_of_loc Zdigits2].
  fold q.
  destruct (shr_shifted (Zpos m) ex (q - ex)) as [He' Hsh1]; [lia|].
  destruct (shr {| shr_m := Z.pos m; shr_r := false; shr_s := false |} ex (q - ex))
    as [rec' e'] eqn:H1. cbn [fst snd] in He', Hsh1.
  assert (e' = e1) as -> by lia.
  replace (Z.max 0 (q - ex)) with (e1 - ex) in Hsh1 by lia.
  pose proof (round_nearest_even_rne _ _ _ Hsh1) as Hrne.
  set (N := round_nearest_even (shr_m rec') (loc_of_shr_record rec')) in *.
  exists N. split; [done|].
  destruct Hrne as (HN0 & Hclose & _).
  set (q2 := fexp PyFloat.prec PyFloat.emax (Zdigits2 N + e1)).
  destruct (shr_shifted N e1 (q2 - e1)) as [He'' Hsh2]; [done|].
  destruct (shr {| shr_m := N; shr_r := false; shr_s := false |} e1 (q2 - e1))
    as [rec'' e''] eqn:H2. cbn [fst snd] in He'', Hsh2.
  assert (q = Z.max (Zpos (digits2_pos m) + ex - 53) (-1074)) as Hq by apply fexp_eq.
  assert (shr_m rec'' * 2 ^ (e'' - e1) = N /\ e1 <= e'') as [Hval Hle].
  { replace (e'' - e1) with (Z.max 0 (q2 - e1)) by lia. split; [|lia].
    apply shifted_exact; [done|].
    destruct (decide (q2 - e1 <= 0)) as [|Hpos]; [left; lia|right].
    assert (0 < N) as HNpos.
    { destruct (decide (N = 0)) as [HN|]; [|lia].
      exfalso. unfold q2 in Hpos. rewrite HN, fexp_eq in Hpos. cbn [Zdigits2] in Hpos. lia. }
    destruct N as [|n|n] eqn:HN; [lia| |lia].
    pose proof (digits2_pos_bounds n) as Hdn.
    assert (q2 = Z.max (Zpos (digits2_pos n) + e1 - 53) (-1074)) as Hq2 by apply fexp_eq.
    assert (54 <= Zpos (digits2_pos n)) as Hbig by lia.
    assert (2 ^ 53 <= Zpos n) as Hlow.
    { etransitivity; [|apply Hdn]. apply Z.pow_le_mono_r; lia. }
    assert (Zpos n <= 2 ^ 53) as Hup.
    { destruct (decide (e1 - ex = 0)) as [Hk|Hk].
      - rewrite Hk in Hclose. change (2 ^ 0) with 1 in Hclose.
        assert (Zpos n = Zpos m) as -> by lia.
        assert (Zpos (digits2_pos m) <= 53) by lia.
        assert (2 ^ Zpos (digits2_pos m) <= 2 ^ 53) by (apply Z.pow_le_mono_r; lia).
        lia.
      - assert (Zpos (digits2_pos m) <= 53 + (e1 - ex)) as Hdk by lia.
        assert (2 ^ Zpos (digits2_pos m) <= 2 ^ (53 + (e1 - ex)))
          by (apply Z.pow_le_mono_r; lia).
        rewrite Z.pow_add_r in H by lia.
        assert (0 < 2 ^ (e1 - ex)) by (apply Z.pow_pos_nonneg; lia).
        nia. }
    assert (Zpos n = 2 ^ 53) as Hn by lia.
    assert (Zpos (digits2_pos n) = 54) as Hd54.
    { destruct (decide (Zpos (digits2_pos n) = 54)); [done|].
      assert (2 ^ 54 <= 2 ^ (Zpos (digits2_pos n) - 1)) by (apply Z.pow_le_mono_r; lia).
      lia. }
    split; [lia|]. rewrite Hn. reflexivity. }
  destruct (shr_m rec'') as [|m'|m'] eqn:Hm''.
  - left. split; [lia|done].
  - right. exists m', e''. split; [done|]. split; [done|].
    change (PyFloat.emax - PyFloat.prec) with 971.
    destruct (Z.leb_spec e'' 971); [left; done | right; done].
  - exfalso. destruct Hsh2 as (_ & Hm & _). lia.
Qed.

(** *** Rounded values *)




Lemma nearest_mono Q X X' Y Y' :
  0 < Q -> nearest Q X Y -> nearest Q X' Y' -> X <= X' -> Y <= Y'.
Proof.
  intros HQ ([a ->] & Ha & Hta) ([b ->] & Hb & Htb) HX.
  rewrite Z.div_mul in Hta, Htb by lia.
  destruct (decide (a <= b)) as [|Hab]; [nia|exfalso].
  assert (a = b + 1) as -> by nia.
  assert (Z.even (b + 1) = true) as H1 by (apply Hta; nia).
  assert (Z.even b = true) as H2 by (apply Htb; nia).
  rewrite Z.even_add, H2 in H1. done.
Qed.

Lemma nearest_le_multiple Q X Y B :
  0 < Q -> nearest Q X Y -> (Q | B) -> X <= B -> Y <= B.
Proof.
  intros HQ ([a ->] & Ha & _) [c ->] HX.
  destruct (decide (a <= c)) as [|Hac]; nia.
Qed.

Lemma nearest_ge_multiple Q X Y B :
  0 < Q -> nearest Q X Y -> (Q | B) -> B <= X -> B <= Y.
Proof.
  intros HQ ([a ->] & Ha & _) [c ->] HX.
  destruct (decide (c <= a)) as [|Hac]; nia.
Qed.

Lemma pow2_divide a b : 0 <= a <= b -> (2 ^ a | 2 ^ b).
Proof.
  intros H. exists (2 ^ (b - a)). rewrite <- Z.pow_add_r by lia. f_equal. lia.
Qed.


Lemma rounded_nonneg X Y : rounded X Y -> 0 <= Y.
Proof.
  intros [[_ ->]|(HX & E & HE & Hn)]; [done|].
  rewrite fexp_eq in Hn.
  apply (nearest_ge_multiple _ X Y 0) in Hn; [done| |by exists 0|lia].
  apply Z.pow_pos_nonneg; unfold scale; lia.
Qed.

Lemma rounded_mono X X' Y Y' :
  rounded X Y -> rounded X' Y' -> X <= X' -> Y <= Y'.
Proof.
  intros [[-> ->]|(HX & E & HE & Hn)] H' Hle; [by eapply rounded_nonneg|].
  destruct H' as [[-> ->]|(HX' & E' & HE' & Hn')]; [lia|].
  rewrite fexp_eq in Hn, Hn'.
  assert (1 <= E + scale) as HEs.
  { destruct (decide (1 <= E + scale)); [done|].
    assert (2 ^ (E + scale) <= 2 ^ 0); [|change (2 ^ 0) with 1 in *; lia].
    destruct (decide (0 <= E + scale)).
    - apply Z.pow_le_mono_r; lia.
    - rewrite Z.pow_neg_r by lia. done. }
  assert (E <= E') as HEE.
  { destruct (decide (E <= E')); [done|].
    assert (2 ^ (E' + scale) <= 2 ^ (E - 1 + scale)); [|lia].
    destruct (decide (0 <= E' + scale)).
    - apply Z.pow_le_mono_r; lia.
    - rewrite Z.pow_neg_r by lia. apply Z.pow_nonneg. lia. }
  assert (0 < 2 ^ (Z.max (E - 53) (-1074) + scale)) as HQ
    by (apply Z.pow_pos_nonneg; unfold scale; lia).
  assert (0 < 2 ^ (Z.max (E' - 53) (-1074) + scale)) as HQ'
    by (apply Z.pow_pos_nonneg; unfold scale; lia).
  destruct (decide (Z.max (E - 53) (-1074) = Z.max (E' - 53) (-1074))) as [Hq|Hq].
  - rewrite <- Hq in Hn'. exact (nearest_mono _ X X' Y Y' HQ Hn Hn' Hle).
  - assert (E < E') by lia.
    assert (Z.max (E' - 53) (-1074) = E' - 53) as Hq53 by lia.
    transitivity (2 ^ (E' - 1 + scale)).
    + apply (nearest_le_multiple _ X Y _ HQ Hn).
      * apply pow2_divide. unfold scale. lia.
      * assert (2 ^ (E + scale) <= 2 ^ (E' - 1 + scale)); [|lia].
        apply Z.pow_le_mono_r; lia.
    + apply (nearest_ge_multiple _ X' Y' _ HQ' Hn'); [|lia].
      apply pow2_divide. unfold scale. lia.
Qed.


Lemma val_bounds m e :
  - scale <= e ->
  0 < val m e /\
  2 ^ (Zpos (digits2_pos m) + e - 1 + scale) <= val m e
    < 2 ^ (Zpos (digits2_pos m) + e + scale).
Proof.
  intros He. unfold val.
  pose proof (digits2_pos_bounds m) as Hd.
  assert (0 < 2 ^ (e + scale)) as HP by (apply Z.pow_pos_nonneg; lia).
  replace (Z.pos (digits2_pos m) + e - 1 + scale)
    with ((Z.pos (digits2_pos m) - 1) + (e + scale)) by lia.
  replace (Z.pos (digits2_pos m) + e + scale)
    with (Z.pos (digits2_pos m) + (e + scale)) by lia.
  rewrite (Z.pow_add_r 2 (Z.pos (digits2_pos m) - 1) (e + scale)) by lia.
  rewrite (Z.pow_add_r 2 (Z.pos (digits2_pos m)) (e + scale)) by lia.
  nia.
Qed.

Lemma round_aux_value m ex :
  - scale <= ex ->
  binary_round_aux PyFloat.prec PyFloat.emax false (Zpos m) ex loc_Exact = S754_infinity false \/
  exists Y, fval (binary_round_aux PyFloat.prec PyFloat.emax false (Zpos m) ex loc_Exact) Y /\
            rounded (val m ex) Y.
Proof.
  intros Hex.
  destruct (binary_round_aux_spec m ex) as (N & Hrne & Hres).
  cbv zeta in Hrne, Hres.
  set (q := fexp PyFloat.prec PyFloat.emax (Zpos (digits2_pos m) + ex)) in *.
  assert (q = Z.max (Zpos (digits2_pos m) + ex - 53) (-1074)) as Hq by apply fexp_eq.
  set (e1 := Z.max ex q) in *.
  destruct (val_bounds m ex Hex) as [Hpos Hb].
  assert (0 < 2 ^ (ex + scale)) as HP by (apply Z.pow_pos_nonneg; lia).
  assert (2 ^ (e1 + scale) = 2 ^ (e1 - ex) * 2 ^ (ex + scale)) as He1.
  { rewrite <- Z.pow_add_r by lia. f_equal. lia. }
  assert (0 < 2 ^ (e1 - ex)) as Hk by (apply Z.pow_pos_nonneg; lia).
  assert (rounded (val m ex) (N * 2 ^ (e1 + scale))) as Hrounded.
  { right. split; [done|]. exists (Zpos (digits2_pos m) + ex). split; [done|].
    fold q. destruct Hrne as (HN0 & Hclose & Htie).
    split; [|split].
    - apply Z.divide_mul_r. apply pow2_divide. unfold scale in *. lia.
    - unfold val. rewrite He1.
      destruct (decide (e1 = q)) as [Heq|Hne].
      + rewrite <- Heq, He1. nia.
      + assert (e1 - ex = 0) as H0 by lia. rewrite H0 in *.
        change (2 ^ 0) with 1 in *.
        assert (N = Zpos m) as -> by lia.
        assert (0 < 2 ^ (q + scale)) by (apply Z.pow_pos_nonneg; unfold scale in *; lia).
        lia.
    - unfold val. rewrite He1.
      destruct (decide (e1 = q)) as [Heq|Hne].
      + rewrite <- Heq, He1. intros Ht.
        rewrite Z.div_mul by lia.
        apply Htie. nia.
      + assert (e1 - ex = 0) as H0 by lia. rewrite H0 in *.
        change (2 ^ 0) with 1 in *.
        assert (N = Zpos m) as -> by lia.
        assert (0 < 2 ^ (q + scale)) by (apply Z.pow_pos_nonneg; unfold scale in *; lia).
        intros Ht. lia. }
  destruct Hres as [[-> Hz]|(m' & e' & Hval & Hle & [[Hf He']|Hinf])].
  - right. exists 0. rewrite Hz. split; [done|]. by rewrite Z.mul_0_l in Hrounded.
  - right. exists (N * 2 ^ (e1 + scale)). rewrite Hf. split; [|done].
    split; [lia|]. unfold val. rewrite <- Hval, <- Z.mul_assoc, <- Z.pow_add_r by lia.
    do 2 f_equal. lia.
  - by left.
Qed.

Lemma below_pow2 X a : 0 < X -> X < 2 ^ a -> 1 <= a.
Proof.
  intros HX Ha. destruct (decide (1 <= a)); [done|].
  assert (2 ^ a <= 2 ^ 0); [|change (2 ^ 0) with 1 in *; lia].
  destruct (decide (0 <= a)).
  - apply Z.pow_le_mono_r; lia.
  - rewrite Z.pow_neg_r by lia. done.
Qed.

Lemma magnitude Y :
  0 < Y -> exists E, 2 ^ (E - 1 + scale) <= Y < 2 ^ (E + scale) /\ 1 <= E + scale.
Proof.
  intros HY. exists (Z.log2 Y + 1 - scale).
  pose proof (Z.log2_spec Y HY) as H. pose proof (Z.log2_nonneg Y).
  replace (Z.log2 Y + 1 - scale - 1 + scale) with (Z.log2 Y) by lia.
  replace (Z.log2 Y + 1 - scale + scale) with (Z.succ (Z.log2 Y)) by lia.
  split; [done|lia].
Qed.

Lemma nearest_self Q Y : 0 < Q -> (Q | Y) -> nearest Q Y Y.
Proof.
  intros HQ Hd. split; [done|]. rewrite Z.sub_diag. cbn. split; lia.
Qed.

(** A rounded value is in the format: rounding leaves it as it is. *)
Lemma rounded_idem X Y : rounded X Y -> rounded Y Y.
Proof.
  intros [[_ ->]|(HX & E & HE & Hn)]; [by left|].
  pose proof (rounded_nonneg X Y ltac:(right; eauto)) as HY0.
  destruct (decide (Y = 0)) as [->|HYne]; [by left|].
  right. split; [lia|].
  destruct (magnitude Y) as (EY & HEY & HEYs); [lia|].
  exists EY. split; [done|].
  rewrite fexp_eq in Hn |- *.
  assert (0 < 2 ^ (Z.max (E - 53) (-1074) + scale)) as HQ
    by (apply Z.pow_pos_nonneg; unfold scale; lia).
  apply nearest_self; [apply Z.pow_pos_nonneg; unfold scale; lia|].
  assert (1 <= E + scale) as HEs by (apply (below_pow2 X); lia).
  destruct (decide (EY <= E)) as [Hle|Hgt].
  - etransitivity; [|apply Hn].
    apply pow2_divide. unfold scale. lia.
  - assert (2 ^ (E + scale) <= 2 ^ (EY - 1 + scale)) as Hpow
      by (apply Z.pow_le_mono_r; lia).
    destruct (decide (-1074 <= E)) as [HE1|HE1].
    + assert (Y <= 2 ^ (E + scale)) as HYB.
      { apply (nearest_le_multiple _ X Y _ HQ Hn); [|lia].
        apply pow2_divide. unfold scale. lia. }
      assert (Y = 2 ^ (E + scale)) as -> by lia.
      assert (EY = E + 1) as ->.
      { destruct (decide (EY = E + 1)); [done|].
        assert (2 ^ (E + 1 + scale) <= 2 ^ (EY - 1 + scale))
          by (apply Z.pow_le_mono_r; lia).
        assert (2 ^ (E + scale) < 2 ^ (E + 1 + scale))
          by (apply Z.pow_lt_mono_r; lia).
        lia. }
      apply pow2_divide. unfold scale. lia.
    + exfalso. destruct Hn as ([a Ha] & Hclose & _).
      replace (Z.max (E - 53) (-1074)) with (-1074) in * by lia.
      assert (2 ^ (E + scale) <= 2 ^ (-1075 + scale))
        by (apply Z.pow_le_mono_r; unfold scale in *; lia).
      assert (2 ^ (-1074 + scale) = 2 * 2 ^ (-1075 + scale)) as H2.
      { rewrite <- Z.pow_succ_r by (unfold scale; lia). by f_equal. }
      rewrite H2 in *. clear H2.
      assert (0 < 2 ^ (-1075 + scale)) by (apply Z.pow_pos_nonneg; unfold scale; lia).
      set (h := 2 ^ (-1075 + scale)) in *.
      assert (1 <= a) by nia.
      assert (2 * h <= Y) by nia.
      lia.
Qed.

(** *** The operations of the formula *)

Lemma iter_xO m d :
  Zpos (Pos.iter xO m d) = Zpos m * 2 ^ Zpos d /\
  Zpos (digits2_pos (Pos.iter xO m d)) = Zpos (digits2_pos m) + Zpos d.
Proof.
  induction d as [|d [IH1 IH2]] using Pos.peano_ind.
  - cbn [Pos.iter digits2_pos]. split; lia.
  - rewrite Pos.iter_succ. cbn [digits2_pos].
    rewrite Pos2Z.inj_xO, IH1, !Pos2Z.inj_succ, IH2, Z.pow_succ_r by lia. split; lia.
Qed.

Lemma shl_align_spec m e e' :
  snd (shl_align m e e') = Z.min e e' /\
  Zpos (fst (shl_align m e e')) = Zpos m * 2 ^ (e - Z.min e e') /\
  Zpos (digits2_pos (fst (shl_align m e e'))) + Z.min e e' = Zpos (digits2_pos m) + e.
Proof.
  unfold shl_align. destruct (e' - e) as [|d|d] eqn:Hd; cbn [fst snd].
  - replace (Z.min e e') with e by lia. rewrite Z.sub_diag. cbn. split; [done|]. lia.
  - replace (Z.min e e') with e by lia. rewrite Z.sub_diag. cbn. split; [done|]. lia.
  - replace (Z.min e e') with e' by lia.
    destruct (iter_xO m d) as [H1 H2]. rewrite H1, H2.
    replace (e - e') with (Zpos d) by lia. split; [done|]. lia.
Qed.

Lemma val_shl_align m e e' :
  - scale <= Z.min e e' ->
  val (fst (shl_align m e e')) (snd (shl_align m e e')) = val m e.
Proof.
  intros Hs. destruct (shl_align_spec m e e') as (H1 & H2 & _).
  unfold val. rewrite H1, H2, <- Z.mul_assoc, <- Z.pow_add_r by lia.
  do 2 f_equal. lia.
Qed.

Lemma binary_round_value m e :
  - scale <= e ->
  binary_round PyFloat.prec PyFloat.emax false m e = S754_infinity false \/
  exists Y, fval (binary_round PyFloat.prec PyFloat.emax false m e) Y /\ rounded (val m e) Y.
Proof.
  intros He. unfold binary_round.
  set (e' := fexp PyFloat.prec PyFloat.emax (Zpos (digits2_pos m) + e)).
  assert (-1074 <= e') by (unfold e'; rewrite fexp_eq; lia).
  pose proof (val_shl_align m e e' ltac:(unfold scale in *; lia)) as Hv.
  destruct (shl_align_spec m e e') as (H1 & _).
  destruct (shl_align m e e') as [mz ez]. cbn [fst snd] in Hv, H1.
  rewrite <- Hv. apply round_aux_value. unfold scale in *. lia.
Qed.

(** The product of a positive constant with small exponent and a float. *)
Lemma mul_value mc ec f Yf :
  -54 <= ec <= 0 ->
  fval f Yf ->
  SFmul PyFloat.prec PyFloat.emax (S754_finite false mc ec) f = S754_infinity false \/
  exists X Y,
    fval (SFmul PyFloat.prec PyFloat.emax (S754_finite false mc ec) f) Y /\
    rounded X Y /\
    X * 2 ^ (- ec) = Zpos mc * Yf.
Proof.
  intros Hec Hf. destruct f as [s|s| |[|] m e]; cbn in Hf; try done.
  - right. exists 0, 0. cbn. split; [done|]. split; [by left|]. lia.
  - destruct Hf as [He ->]. cbn [SFmul xorb].
    destruct (round_aux_value (mc * m) (ec + e)) as [Hinf|(Y & HY & Hr)];
      [unfold scale; lia | by left |].
    right. exists (val (mc * m) (ec + e)), Y. split; [done|]. split; [done|].
    unfold val. rewrite Pos2Z.inj_mul.
    replace (e + scale) with ((ec + e + scale) + - ec) by lia.
    rewrite (Z.pow_add_r 2 (ec + e + scale) (- ec)) by (unfold scale; lia). lia.
Qed.

(** The sum of two floats that are zero or positive. *)
Lemma add_value a b Ya Yb :
  fval a Ya -> fval b Yb -> rounded Ya Ya -> rounded Yb Yb ->
  SFadd PyFloat.prec PyFloat.emax a b = S754_infinity false \/
  exists Y, fval (SFadd PyFloat.prec PyFloat.emax a b) Y /\ rounded (Ya + Yb) Y.
Proof.
  intros Ha Hb Hra Hrb.
  destruct a as [sa|sa| |[|] ma ea]; cbn in Ha; try done;
    destruct b as [sb|sb| |[|] mb eb]; cbn in Hb; try done.
  - right. exists 0. subst. split; [|by left].
    cbn. by destruct sa, sb.
  - right. exists Yb. destruct Hb as [He ->]. cbn [SFadd]. subst Ya.
    split; [done|]. by rewrite Z.add_0_l.
  - right. exists Ya. destruct Ha as [He ->]. cbn [SFadd]. subst Yb.
    split; [done|]. by rewrite Z.add_0_r.
  - destruct Ha as [Hea ->], Hb as [Heb ->]. cbn [SFadd cond_Zopp].
    set (ez := Z.min ea eb).
    destruct (shl_align_spec ma ea ez) as (_ & Hma & _).
    destruct (shl_align_spec mb eb ez) as (_ & Hmb & _).
    replace (Z.min ea ez) with ez in Hma by lia.
    replace (Z.min eb ez) with ez in Hmb by lia.
    change (Z.pos (shl_align ma ea ez).1 + Z.pos (shl_align mb eb ez).1)
      with (Z.pos ((shl_align ma ea ez).1 + (shl_align mb eb ez).1)).
    cbn [binary_normalize].
    destruct (binary_round_value ((shl_align ma ea ez).1 + (shl_align mb eb ez).1) ez)
      as [Hinf|(Y & HY & Hr)]; [unfold scale; lia | by left |].
    right. exists Y. split; [done|].
    replace (val ma ea + val mb eb)
      with (val ((shl_align ma ea ez).1 + (shl_align mb eb ez).1) ez); [done|].
    unfold val. rewrite Pos2Z.inj_add, Hma, Hmb.
    replace (ea + scale) with ((ea - ez) + (ez + scale)) by lia.
    replace (eb + scale) with ((eb - ez) + (ez + scale)) by lia.
    rewrite (Z.pow_add_r 2 (ea - ez)), (Z.pow_add_r 2 (eb - ez)) by (unfold scale; lia).
    lia.
Qed.




Lemma float_of_int_value z f :
  0 <= z -> PyFloat.float_of_int z = Ok f ->
  exists Y, fval f Y /\ rounded (z * 2 ^ scale) Y.
Proof.
  intros Hz. unfold PyFloat.float_of_int.
  destruct z as [|p|p]; [| |lia]; cbn [binary_normalize].
  - intros [= <-]. exists 0. split; [done|]. by left.
  - destruct (binary_round_value p 0) as [Hinf|(Y & HY & Hr)]; [unfold scale; lia| |].
    + by rewrite Hinf.
    + intros Hf. exists Y.
      assert (binary_round PyFloat.prec PyFloat.emax false p 0 = f) as <-
        by (destruct (binary_round PyFloat.prec PyFloat.emax false p 0); congruence).
      split; [done|]. unfold val in Hr. by rewrite Z.add_0_l in Hr.
Qed.

Lemma int_of_float_value f Y v :
  fval f Y -> PyFloat.int_of_float f = Ok v -> v = Y / 2 ^ scale.
Proof.
  destruct f as [s|s| |[|] m e]; cbn; try done.
  - by intros -> [= <-].
  - intros [He ->] [= <-]. unfold val.
    assert (0 < 2 ^ scale) by (apply Z.pow_pos_nonneg; unfold scale; lia).
    destruct (decide (0 <= e)).
    + rewrite Z.shiftl_mul_pow2, Z.pow_add_r, Z.mul_assoc, Z.div_mul
        by (unfold scale; lia). done.
    + rewrite Z.shiftl_div_pow2 by lia.
      replace scale with ((e + scale) + - e) at 2 by lia.
      rewrite (Z.pow_add_r 2 (e + scale) (- e)) by (unfold scale; lia).
      rewrite (Z.mul_comm (2 ^ (e + scale))), Z.div_mul_cancel_r; [done| |].
      * apply Z.pow_nonzero; lia.
      * apply Z.pow_nonzero; unfold scale; lia.
Qed.

Lemma overall_formula_value m p v :
  0 <= m -> 0 <= p -> overall_formula m p = Ok v -> formula_value m p v.
Proof.
  intros Hm Hp. unfold overall_formula.
  intros (fm & Hfm & (fp & Hfp & Hv)%outcome_bind_ok)%outcome_bind_ok.
  destruct (float_of_int_value m fm Hm Hfm) as (Ym & Hvm & Hrm).
  destruct (float_of_int_value p fp Hp Hfp) as (Yp & Hvp & Hrp).
  unfold PyFloat.add, PyFloat.mul, PyFloat.float_0_3, PyFloat.float_0_7 in Hv.
  destruct (mul_value 5404319552844595 (-54) fm Ym ltac:(lia) Hvm)
    as [Hinf|(Xa & Ya & Hva & Hra & Hxa)].
  { rewrite Hinf in Hv.
    by destruct (SFmul PyFloat.prec PyFloat.emax (S754_finite false 6305039478318694 (-53)) fp)
      as [[]|[]| |[] ? ?]. }
  destruct (mul_value 6305039478318694 (-53) fp Yp ltac:(lia) Hvp)
    as [Hinf|(Xb & Yb & Hvb & Hrb & Hxb)].
  { rewrite Hinf in Hv.
    by destruct (SFmul PyFloat.prec PyFloat.emax (S754_finite false 5404319552844595 (-54)) fm)
      as [[]|[]| |[] ? ?]. }
  destruct (add_value _ _ Ya Yb Hva Hvb (rounded_idem _ _ Hra) (rounded_idem _ _ Hrb))
    as [Hinf|(Ys & Hvs & Hrs)].
  { by rewrite Hinf in Hv. }
  exists Ym, Yp, Xa, Ya, Xb, Yb, Ys.
  repeat (split; [done|]). by eapply int_of_float_value.
Qed.

Lemma formula_value_mono m p v m' p' v' :
  formula_value m p v -> formula_value m' p' v' ->
  m <= m' -> p <= p' -> v <= v'.
Proof.
  intros (Ym & Yp & Xa & Ya & Xb & Yb & Ys & Hm & Hp & Ha & Hxa & Hb & Hxb & Hs & ->)
         (Ym' & Yp' & Xa' & Ya' & Xb' & Yb' & Ys' & Hm' & Hp' & Ha' & Hxa' & Hb' & Hxb' & Hs' & ->)
         Hmm Hpp.
  assert (0 < 2 ^ scale) as Hsc by (apply Z.pow_pos_nonneg; unfold scale; lia).
  assert (Ym <= Ym') by (apply (rounded_mono _ _ _ _ Hm Hm'); nia).
  assert (Yp <= Yp') by (apply (rounded_mono _ _ _ _ Hp Hp'); nia).
  assert (Ya <= Ya') by (apply (rounded_mono _ _ _ _ Ha Ha'); lia).
  assert (Yb <= Yb') by (apply (rounded_mono _ _ _ _ Hb Hb'); lia).
  assert (Ys <= Ys') by (apply (rounded_mono _ _ _ _ Hs Hs'); lia).
  by apply Z.div_le_mono.
Qed.

(** The formula is monotone in both scores, over all natural numbers. *)
Lemma overall_formula_mono m p m' p' v v' :
  0 <= m <= m' -> 0 <= p <= p' ->
  overall_formula m p = Ok v -> overall_formula m' p' = Ok v' ->
  v <= v'.
Proof.
  intros Hm Hp Hv Hv'.
  apply (formula_value_mono m p v m' p' v'); [| |lia|lia];
    apply overall_formula_value; (done || lia).
Qed.

(** ** From the profile to the datastore *)

Lemma get_score_with_user_id self st k :
  get_score (with_user_id self st) k = get_score st k.
Proof. reflexivity. Qed.

Lemma stored_score_lookup ds email st k :
  students ds !! email = Some st -> stored_score ds email k = get_score st k.
Proof. intros H. unfold stored_score. by rewrite H. Qed.

Lemma stored_score_committed self email t ans env ds st st' k :
  stored_score (committed self email t ans env ds st st') email k = get_score st' k.
Proof. unfold stored_score, committed; cbn. by rewrite lookup_insert_eq. Qed.

Lemma stored_score_committed_ne self email t ans env ds st st' email' k :
  email' <> email ->
  stored_score (committed self email t ans env ds st st') email' k
  = stored_score ds email' k.
Proof. intros Hne. unfold stored_score, committed; cbn. by rewrite lookup_insert_ne. Qed.

Lemma stored_answer_committed self email t ans env ds st st' :
  stored_answer (committed self email t ans env ds st st') (effective_user_id self st) t
  = Some ans.
Proof.
  unfold stored_answer, committed, submitted_answers, set_answer; cbn.
  rewrite lookup_insert_eq; cbn. apply lookup_insert_eq.
Qed.

(** What a submission that returns has done to the scores. *)
Lemma txn_ok_scores self email t ans sc env ds st' res :
  Db.returned (update_assessment_transaction self email t ans sc env ds) = Ok (st', res) ->
  exists st,
    students ds !! email = Some st /\
    store_score (with_user_id self st) t sc = Ok (st', res) /\
    (forall k, stored_score ds email k = get_score (with_user_id self st) k) /\
    (forall k, stored_score
                 (Db.store (update_assessment_transaction self email t ans sc env ds))
                 email k = get_score st' k).
Proof.
  intros (st & Hst & Hsc & Hs & _)%txn_ok. exists st. repeat split; try done.
  - intros k. by rewrite (stored_score_lookup _ _ _ k Hst).
  - intros k. rewrite Hs. apply stored_score_committed.
Qed.

(** A submission touches the scores of no other learner. *)
Lemma txn_scores_other self email t ans sc env ds email' k :
  email' <> email ->
  stored_score (Db.store (update_assessment_transaction self email t ans sc env ds)) email' k
  = stored_score ds email' k.
Proof.
  intros Hne.
  destruct (Db.returned (update_assessment_transaction self email t ans sc env ds))
    as [[st' res]|e] eqn:Hr.
  - apply txn_ok in Hr as (st & _ & _ & -> & _).
    by apply stored_score_committed_ne.
  - apply txn_raise in Hr as (-> & _). done.
Qed.

(** ** The final assessment *)

Lemma store_score_fin st s st' res :
  store_score st "Fin" s = Ok (st', res) ->
  exists v,
    overall_formula (default 0 (get_score st "Mid")) (update_rule (get_score st "Fin") s)
      = Ok v /\
    get_score st' "Fin" = Some (update_rule (get_score st "Fin") s) /\
    get_score st' "Mid" = get_score st "Mid" /\
    get_score st' "overall_score" = Some v /\
    res = Some (if 70 <=? v then "pass" else "fail").
Proof.
  rewrite store_score_eq. destruct (decide ("Fin" = "Fin")); [|done].
  intros (v & Hv & [= <- <-])%outcome_bind_ok. exists v.
  split; [done|]. split; [|split; [|split; [|done]]].
  - rewrite get_set_score_ne by done. apply get_set_score_eq.
  - by rewrite !get_set_score_ne by done.
  - apply get_set_score_eq.
Qed.

Lemma exact_overall_close mid post v :
  (3 * mid + 7 * post - 1) / 10 <= v <= (3 * mid + 7 * post) / 10 ->
  exact_overall mid post - 1 <= v <= exact_overall mid post /\
  ((3 * mid + 7 * post) mod 10 <> 0 -> v = exact_overall mid post).
Proof.
  unfold exact_overall. intros H.
  Z.div_mod_to_equations. lia.
Qed.

(** C2, as stated, fails: a learner without a mid-course score who submits
    the final assessment with score 90 gets the overall score 62, because
    the double [0.7 * 90] is [62.99999999999999]; the exact formula gives
    [floor(0.3 * 0 + 0.7 * 90) = 63]. *)
Lemma C2_counterexample :
  let r := update_assessment_transaction alice_handler alice "Fin" (JList []) 90
             (quiet 0) (store_with ∅) in
  is_ok (Db.returned r) = true /\
  stored_score (store_with ∅) alice "Mid" = None /\
  stored_score (Db.store r) alice "Fin" = Some 90 /\
  stored_score (Db.store r) alice "overall_score" = Some 62 /\
  exact_overall 0 90 = 63.
Proof. vm_compute. repeat split; reflexivity. Qed.

(** C2, amended: on a final-assessment submission the stored overall score
    is Python's [int] of the double-precision value of
    [0.3 * mid + 0.7 * postCourse], where [mid] is the stored "Mid" score (0
    if absent) and [postCourse] the final score after the max rule.  For
    percentages this is [floor((3 * mid + 7 * postCourse) / 10)] whenever
    [3 * mid + 7 * postCourse] is no multiple of 10, and that value or one
    below it otherwise; and the submission of a known learner then
    returns. *)
Theorem C2_overall_score_binary64 self email ans sc env ds :
  let r := update_assessment_transaction self email "Fin" ans sc env ds in
  let mid := default 0 (stored_score ds email "Mid") in
  let post := update_rule (stored_score ds email "Fin") sc in
  (forall st' res, Db.returned r = Ok (st', res) ->
     stored_score (Db.store r) email "Fin" = Some post /\
     exists v,
       overall_formula mid post = Ok v /\
       stored_score (Db.store r) email "overall_score" = Some v /\
       (percent mid -> percent post ->
          exact_overall mid post - 1 <= v <= exact_overall mid post /\
          ((3 * mid + 7 * post) mod 10 <> 0 -> v = exact_overall mid post))) /\
  (is_Some (students ds !! email) -> fail_at env = None ->
   percent mid -> percent post -> is_ok (Db.returned r) = true).
Proof.
  intros r mid post. split.
  - intros st' res (st & Hst & Hsc & Hold & Hnew)%txn_ok_scores.
    apply store_score_fin in Hsc as (v & Hv & Hfin & _ & Hov & _).
    fold r in Hnew. rewrite !Hnew. unfold mid, post. rewrite !Hold.
    split; [done|]. exists v. split; [done|]. split; [done|].
    intros Hm Hp. apply exact_overall_close.
    destruct (overall_formula_percent _ _ Hm Hp) as (w & Hw & Hb).
    assert (w = v) as -> by congruence. exact Hb.
  - intros [st Hst] Hnf Hm Hp.
    destruct (overall_formula_percent _ _ Hm Hp) as (v & Hv & _).
    unfold mid, post in Hv.
    rewrite !(stored_score_lookup _ _ _ _ Hst) in Hv.
    assert (exists st' res, store_score (with_user_id self st) "Fin" sc = Ok (st', res))
      as (st' & res & Hsc).
    { rewrite store_score_eq. destruct (decide ("Fin" = "Fin")); [|done].
      rewrite !get_score_with_user_id, Hv. cbn. eauto. }
    destruct (txn_succeeds self email "Fin" ans sc env ds st st' res Hst Hnf Hsc)
      as (Hr & _).
    unfold r. by rewrite Hr.
Qed.

Lemma C2_witness :
  let ds := store_with {[ "Mid" := 80 ]} in
  let r := update_assessment_transaction alice_handler alice "Fin" (JList []) 60
             (quiet 0) ds in
  stored_score (Db.store r) alice "Fin" = Some 60 /\
  exists v, stored_score (Db.store r) alice "overall_score" = Some v /\ 65 <= v <= 66.
Proof.
  intros ds r.
  pose proof (C2_overall_score_binary64 alice_handler alice (JList []) 60
                (quiet 0) ds) as [H _].
  assert (Db.returned r
          = Ok ({| user_id := Some "uid-alice";
                   scores := <["overall_score" := 66]>
                               (<["Fin" := 60]> {[ "Mid" := 80 ]}) |},
                Some "fail")) as Hr
    by (vm_compute; reflexivity).
  destruct (H _ _ Hr) as (Hfin & v & _ & Hv & Hclose).
  split; [exact Hfin|].
  destruct Hclose as [Hex _]; [vm_compute; split; discriminate ..|].
  exists v. split; [exact Hv|exact Hex].
Defined.

(** C3: the result of a submission is "pass" exactly when the overall score
    it has computed and stored is at least 70, "fail" exactly when it is
    below 70, and there is no result when the assessment type is not
    "Fin". *)
Theorem C3_result_threshold self email t ans sc env ds st' res :
  let r := update_assessment_transaction self email t ans sc env ds in
  Db.returned r = Ok (st', res) ->
  (t = "Fin" ->
     exists overall,
       stored_score (Db.store r) email "overall_score" = Some overall /\
       (res = Some "pass" <-> 70 <= overall) /\
       (res = Some "fail" <-> overall < 70)) /\
  (t <> "Fin" -> res = None).
Proof.
  intros r (st & Hst & Hsc & Hold & Hnew)%txn_ok_scores. split.
  - intros ->. apply store_score_fin in Hsc as (v & _ & _ & _ & Hov & ->).
    exists v. fold r in Hnew. rewrite Hnew. split; [done|].
    destruct (Z.leb_spec 70 v); split; split; intros H'; (done || lia).
  - intros Hne. rewrite store_score_other in Hsc by done. by injection Hsc as _ <-.
Qed.

Lemma C3_witness :
  let ds := store_with {[ "Mid" := 80 ]} in
  let r := update_assessment_transaction alice_handler alice "Fin" (JList []) 90
             (quiet 0) ds in
  exists overall,
    stored_score (Db.store r) alice "overall_score" = Some overall /\
    (Some "pass" = Some "pass" <-> 70 <= overall).
Proof.
  intros ds r.
  assert (Db.returned r
          = Ok ({| user_id := Some "uid-alice";
                   scores := <["overall_score" := 87]>
                               (<["Fin" := 90]> {[ "Mid" := 80 ]}) |},
                Some "pass")) as Hr
    by (vm_compute; reflexivity).
  destruct (C3_result_threshold alice_handler alice "Fin" (JList []) 90 (quiet 0) ds
              _ _ Hr) as [H _].
  destruct (H eq_refl) as (overall & Hov & Hpass & _).
  exists overall. split; [exact Hov | exact Hpass].
Defined.

(** ** The best score of a run of submissions *)

Lemma is_maximum_max v p s l :
  is_maximum v (Z.max p s :: l) <-> is_maximum v (p :: s :: l).
Proof.
  unfold is_maximum. rewrite !elem_of_cons, !Forall_cons.
  destruct (Z.max_spec p s) as [[? ->] | [? ->]]; intuition lia.
Qed.

Lemma best_of_maximum prior l v :
  best_of prior l = Some v <-> is_maximum v (option_list prior ++ l).
Proof.
  revert prior. induction l as [|s l IH]; intros prior.
  - cbn. rewrite app_nil_r. unfold is_maximum. destruct prior as [p|]; cbn.
    + rewrite list_elem_of_singleton, Forall_singleton. split.
      * intros [= ->]. split; [done | lia].
      * intros [-> _]. done.
    + split; [done|]. intros [H _]. by apply elem_of_nil in H.
  - change (best_of prior (s :: l)) with (best_of (Some (update_rule prior s)) l).
    rewrite IH. destruct prior as [p|]; cbn; [|done].
    apply is_maximum_max.
Qed.

Lemma txn_ok_type self email t ans sc env ds st' res :
  Db.returned (update_assessment_transaction self email t ans sc env ds) = Ok (st', res) ->
  stored_score (Db.store (update_assessment_transaction self email t ans sc env ds)) email t
  = Some (update_rule (stored_score ds email t) sc).
Proof.
  intros (st & Hst & Hsc & Hold & Hnew)%txn_ok_scores.
  rewrite Hnew, Hold. by eapply store_score_type.
Qed.

Section PostLemmas.

Variable loads : string -> outcome json.
Variable int_round_float : string -> outcome Z.

(** A request of an enrolled learner that passes the checks and returns
    has run the transaction with the rounded score. *)
Lemma post_recorded self req env ds email conf ds' :
  req_enrolled req = Some email ->
  req_xsrf_ok req = true ->
  req_assessment_type req <> "" ->
  post loads int_round_float self req env ds = (Ok conf, ds') ->
  exists ans sc st' res,
    int_round_float (req_score req) = Ok sc /\
    Db.returned (update_assessment_transaction self email (req_assessment_type req)
                   ans sc env ds) = Ok (st', res) /\
    ds' = Db.store (update_assessment_transaction self email (req_assessment_type req)
                      ans sc env ds).
Proof.
  intros He Hx Ht. unfold post. rewrite He, Hx. cbn.
  destruct (decide (req_assessment_type req = "")); [done|].
  destruct (if decide (req_answers req = "") then Ok (JList []) else loads (req_answers req))
    as [ans|]; [|done].
  destruct (int_round_float (req_score req)) as [sc|]; [|done].
  destruct (Db.returned (update_assessment_transaction self email
                           (req_assessment_type req) ans sc env ds))
    as [[st' res]|] eqn:Hr; [|done].
  intros [= _ <-]. exists ans, sc, st', res. done.
Qed.

Lemma post_all_best_of self email t reqs ds ds' :
  t <> "" ->
  Forall (fun er => req_enrolled er.2 = Some email /\ req_xsrf_ok er.2 = true /\
                    req_assessment_type er.2 = t) reqs ->
  post_all loads int_round_float self reqs ds = Ok ds' ->
  length (rounded_scores int_round_float reqs) = length reqs /\
  stored_score ds' email t
  = best_of (stored_score ds email t) (rounded_scores int_round_float reqs).
Proof.
  intros Ht Hwf. revert ds. induction Hwf as [|[env req] reqs (He & Hx & Hty) _ IH];
    intros ds Hall.
  - injection Hall as <-. done.
  - cbn in Hall, He, Hx, Hty.
    destruct (post loads int_round_float self req env ds) as [[conf|e] ds1] eqn:Hp;
      [|done].
    apply (post_recorded _ _ _ _ email) in Hp
      as (ans & sc & st' & res & Hsc & Hr & ->); [|done|done|congruence].
    rewrite Hty in Hr. apply txn_ok_type in Hr.
    destruct (IH _ Hall) as [Hlen Hbest].
    unfold rounded_scores in *. cbn. rewrite Hsc. cbn. split; [by rewrite Hlen|].
    rewrite Hbest. rewrite Hty, Hr. done.
Qed.

End PostLemmas.

Lemma best_of_some p l : exists v, best_of (Some p) l = Some v.
Proof.
  revert p. induction l as [|s l IH]; intros p; [by exists p|].
  change (best_of (Some p) (s :: l)) with (best_of (Some (update_rule (Some p) s)) l).
  apply IH.
Qed.

(** C1: over a run of submissions of one assessment type by one learner,
    each score being rounded to an integer before it is compared, the score
    on record for that type follows the update rule (the candidate when
    there is none, the larger one otherwise), is the maximum of the score on
    record before the run and of all submitted scores, and is below none of
    them. *)
Theorem C1_stored_score_is_maximum
    (loads : string -> outcome json) (int_round_float : string -> outcome Z)
    self email t reqs ds ds' :
  t <> "" ->
  Forall (fun er => req_enrolled er.2 = Some email /\ req_xsrf_ok er.2 = true /\
                    req_assessment_type er.2 = t) reqs ->
  post_all loads int_round_float self reqs ds = Ok ds' ->
  let submitted := rounded_scores int_round_float reqs in
  length submitted = length reqs /\
  stored_score ds' email t = best_of (stored_score ds email t) submitted /\
  (forall v, stored_score ds' email t = Some v <->
             is_maximum v (option_list (stored_score ds email t) ++ submitted)) /\
  (forall s, s ∈ submitted -> exists v, stored_score ds' email t = Some v /\ s <= v).
Proof.
  intros Ht Hwf Hall submitted.
  destruct (post_all_best_of loads int_round_float self email t reqs ds ds' Ht Hwf Hall)
    as [Hlen Hbest].
  fold submitted in Hlen, Hbest.
  split; [done|]. split; [done|]. split.
  - intros v. rewrite Hbest. apply best_of_maximum.
  - intros s Hs. rewrite Hbest.
    assert (exists v, best_of (stored_score ds email t) submitted = Some v) as [v Hv].
    { destruct submitted as [|s0 l]; [by apply elem_of_nil in Hs|].
      change (best_of (stored_score ds email t) (s0 :: l))
        with (best_of (Some (update_rule (stored_score ds email t) s0)) l).
      apply best_of_some. }
    exists v. split; [done|].
    apply best_of_maximum in Hv as [_ Hall'].
    rewrite Forall_forall in Hall'. apply Hall'. apply elem_of_app. by right.
Qed.

Lemma C1_witness :
  let reqs := [ (quiet 1, request "Mid" "a" "59.6");
                (quiet 2, request "Mid" "b" "90");
                (quiet 3, request "Mid" "c" "70.4") ] in
  exists ds',
    post_all sample_loads sample_round alice_handler reqs (store_with ∅) = Ok ds' /\
    rounded_scores sample_round reqs = [60; 90; 70] /\
    (stored_score ds' alice "Mid" = Some 90 <-> is_maximum 90 [60; 90; 70]).
Proof.
  intros reqs.
  destruct (post_all sample_loads sample_round alice_handler reqs (store_with ∅))
    as [ds'|e] eqn:Hall; [|vm_compute in Hall; discriminate].
  exists ds'. split; [reflexivity|]. split; [vm_compute; reflexivity|].
  assert ("Mid" <> "") as Ht by discriminate.
  assert (Forall (fun er : Env * Request =>
                    req_enrolled er.2 = Some alice /\ req_xsrf_ok er.2 = true /\
                    req_assessment_type er.2 = "Mid") reqs) as Hwf
    by (repeat constructor).
  destruct (C1_stored_score_is_maximum sample_loads sample_round alice_handler alice
              "Mid" reqs (store_with ∅) ds' Ht Hwf Hall) as (_ & _ & Hmax & _).
  exact (Hmax 90).
Defined.

(** ** The answers record *)

Lemma effective_user_id_stable self st st' :
  user_id st' = Some (effective_user_id self st) ->
  effective_user_id self st' = effective_user_id self st.
Proof.
  unfold effective_user_id. intros ->.
  destruct (user_id st) as [u|]; cbn.
  - destruct (bool_decide (u = "")) eqn:Hu; cbn.
    + by destruct (bool_decide (handler_user_id self = "")) eqn:Hh.
    + by rewrite Hu.
  - by destruct (bool_decide (handler_user_id self = "")) eqn:Hh.
Qed.

Lemma txn_ok_answers self email t ans sc env ds st' res :
  Db.returned (update_assessment_transaction self email t ans sc env ds) = Ok (st', res) ->
  exists st,
    students ds !! email = Some st /\
    user_id st' = Some (effective_user_id self st) /\
    students (Db.store (update_assessment_transaction self email t ans sc env ds)) !! email
      = Some st' /\
    stored_answer (Db.store (update_assessment_transaction self email t ans sc env ds))
      (effective_user_id self st) t = Some ans.
Proof.
  intros (st & Hst & Hsc & Hs & _)%txn_ok. exists st.
  split; [done|]. split; [by rewrite (store_score_user_id _ _ _ _ _ Hsc)|].
  rewrite Hs. split; [apply lookup_insert_eq | apply stored_answer_committed].
Qed.

(** C4: after a submission that returns, the answers on record for its type
    are its payload, whatever its score; a second submission of the same
    type with a score that is not higher leaves the score on record as it
    was and still replaces the answers by its own payload. *)
Theorem C4_answers_follow_latest_submission
    self email t ans1 sc1 env1 ans2 sc2 env2 ds st1 res1 st2 res2 :
  let r1 := update_assessment_transaction self email t ans1 sc1 env1 ds in
  let r2 := update_assessment_transaction self email t ans2 sc2 env2 (Db.store r1) in
  Db.returned r1 = Ok (st1, res1) ->
  Db.returned r2 = Ok (st2, res2) ->
  exists uid,
    user_id st1 = Some uid /\ user_id st2 = Some uid /\
    stored_answer (Db.store r1) uid t = Some ans1 /\
    stored_answer (Db.store r2) uid t = Some ans2 /\
    (sc2 <= sc1 ->
       stored_score (Db.store r2) email t = stored_score (Db.store r1) email t).
Proof.
  intros r1 r2 H1 H2.
  pose proof (txn_ok_type _ _ _ _ _ _ _ _ _ H1) as Ht1.
  pose proof (txn_ok_type _ _ _ _ _ _ _ _ _ H2) as Ht2.
  apply txn_ok_answers in H1 as (st & Hst & Hu1 & Hst1 & Ha1).
  apply txn_ok_answers in H2 as (st1' & Hst1' & Hu2 & _ & Ha2).
  fold r1 in Hst1, Ha1, Hst1', Ht1, Ht2. fold r2 in Ha2, Ht2.
  assert (st1' = st1) as -> by congruence.
  rewrite (effective_user_id_stable _ _ _ Hu1) in Hu2, Ha2.
  exists (effective_user_id self st). repeat split; try done.
  intros Hle. rewrite Ht2, Ht1. f_equal. cbn.
  pose proof (update_rule_ge (stored_score ds email t) sc1). lia.
Qed.

Lemma C4_witness :
  let r1 := update_assessment_transaction alice_handler alice "Mid" (JStr "first") 90
              (quiet 1) (store_with ∅) in
  let r2 := update_assessment_transaction alice_handler alice "Mid" (JStr "second") 40
              (quiet 2) (Db.store r1) in
  stored_answer (Db.store r1) "uid-alice" "Mid" = Some (JStr "first") /\
  stored_answer (Db.store r2) "uid-alice" "Mid" = Some (JStr "second") /\
  stored_score (Db.store r2) alice "Mid" = stored_score (Db.store r1) alice "Mid".
Proof.
  intros r1 r2.
  assert (Db.returned r1
          = Ok ({| user_id := Some "uid-alice"; scores := {[ "Mid" := 90 ]} |}, None))
    as H1 by (vm_compute; reflexivity).
  assert (Db.returned r2
          = Ok ({| user_id := Some "uid-alice"; scores := {[ "Mid" := 90 ]} |}, None))
    as H2 by (vm_compute; reflexivity).
  pose proof (C4_answers_follow_latest_submission alice_handler alice "Mid"
                (JStr "first") 90 (quiet 1) (JStr "second") 40 (quiet 2) (store_with ∅)
                {| user_id := Some "uid-alice"; scores := {[ "Mid" := 90 ]} |} None
                {| user_id := Some "uid-alice"; scores := {[ "Mid" := 90 ]} |} None) as H.
  cbv zeta in H. destruct (H H1 H2) as (uid & Hu & _ & Ha1 & Ha2 & Hsc).
  injection Hu as <-.
  split; [exact Ha1|]. split; [exact Ha2|]. apply Hsc. lia.
Defined.

(** ** Unknown learners *)

Lemma txn_unknown self email t ans sc env ds :
  students ds !! email = None ->
  fail_at env <> Some 0%nat ->
  update_assessment_transaction self email t ans sc env ds
  = {| Db.returned := Raise NotFoundError; Db.store := ds;
       Db.trace := [OpGetStudent email; OpRollback] |}.
Proof.
  intros Hst Hnf.
  unfold update_assessment_transaction, Db.transactional,
    update_assessment_transaction_body, Db.Student_get_by_email,
    Db.bind, Db.call, Db.read, Db.lift, Db.ret.
  txn_simpl.
  destruct (decide (fail_at env = Some 0%nat)); [done|]. txn_simpl.
  rewrite Hst. reflexivity.
Qed.

(** C5: a submission for a learner without a profile fails with
    [NotFoundError] and leaves the datastore (profiles, answers records and
    events) as it was; nothing but the lookup of the profile was issued. *)
Theorem C5_unknown_learner self email t ans sc env ds :
  students ds !! email = None ->
  fail_at env <> Some 0%nat ->
  let r := update_assessment_transaction self email t ans sc env ds in
  Db.returned r = Raise NotFoundError /\
  Db.store r = ds /\
  Db.trace r = [OpGetStudent email; OpRollback].
Proof.
  intros Hst Hnf r. unfold r. by rewrite txn_unknown.
Qed.

Lemma C5_witness :
  let r := update_assessment_transaction alice_handler "bob@example.com" "Mid"
             (JList []) 80 (quiet 0) (store_with ∅) in
  Db.returned r = Raise NotFoundError /\ Db.store r = store_with ∅.
Proof.
  intros r.
  destruct (C5_unknown_learner alice_handler "bob@example.com" "Mid" (JList []) 80
              (quiet 0) (store_with ∅)) as (Hr & Hs & _).
  - vm_compute. reflexivity.
  - discriminate.
  - split; [exact Hr | exact Hs].
Defined.

(** ** The event and the commit *)




(** ** Retrying *)

Lemma store_score_idem st t s st' res :
  store_score st t s = Ok (st', res) -> store_score st' t s = Ok (st', res).
Proof.
  intros H. pose proof H as H0. rewrite store_score_eq in H |- *.
  destruct (decide (t = "Fin")) as [->|Hne].
  - apply store_score_fin in H0 as (v & Hv & Hfin & Hmid & Hov & ->).
    rewrite Hfin, Hmid, update_rule_idem. cbn [update_rule].
    replace (Z.max (update_rule (get_score st "Fin") s) s)
      with (update_rule (get_score st "Fin") s)
      by (pose proof (update_rule_ge (get_score st "Fin") s); lia).
    rewrite Hv. cbn. do 2 f_equal.
    rewrite (set_score_same st' "Fin") by done. by apply set_score_same.
  - injection H as <- <-.
    rewrite get_set_score_eq, update_rule_idem, set_score_twice. done.
Qed.

Lemma with_user_id_fixed self st st' :
  user_id st' = Some (effective_user_id self st) -> with_user_id self st' = st'.
Proof.
  intros Hu. unfold with_user_id.
  rewrite (effective_user_id_stable _ _ _ Hu). destruct st' as [u sc]; cbn in *.
  by rewrite Hu.
Qed.

Lemma txn_quiet self email t ans sc time ds :
  let r := update_assessment_transaction self email t ans sc (quiet time) ds in
  match students ds !! email with
  | None => Db.returned r = Raise NotFoundError /\ Db.store r = ds
  | Some st =>
      Db.returned r = store_score (with_user_id self st) t sc /\
      Db.store r = match store_score (with_user_id self st) t sc with
                   | Ok (st', _) => committed self email t ans (quiet time) ds st st'
                   | Raise _ => ds
                   end
  end.
Proof.
  intros r.
  destruct (txn_cases self email t ans sc (quiet time) ds)
    as [(e & Hr & Hs & _ & _ & Hwhy) | (st & st' & res & Hst & Hsc & Hr & Hs & _)];
    fold r in Hr, Hs.
  - destruct Hwhy as [(k & Hk & _) | [(Hno & ->) | (st & Hst & Hsc)]].
    + discriminate.
    + by rewrite Hno.
    + by rewrite Hst, Hsc.
  - by rewrite Hst, Hsc.
Qed.

Lemma stored_answer_resubmitted self email t ans env1 env2 ds st st' key k :
  effective_user_id self st' = effective_user_id self st ->
  stored_answer
    (committed self email t ans env2 (committed self email t ans env1 ds st st') st' st')
    key k
  = stored_answer (committed self email t ans env1 ds st st') key k.
Proof.
  intros Hu. unfold stored_answer, committed. cbn. rewrite Hu.
  destruct (decide (key = effective_user_id self st)) as [->|Hne].
  - rewrite !lookup_insert_eq. cbn.
    destruct (decide (k = t)) as [->|Hk].
    + by rewrite !lookup_insert_eq.
    + by rewrite !lookup_insert_ne by done.
  - by rewrite !lookup_insert_ne by done.
Qed.

(** C7: running the transaction a second time with the same inputs, at
    another time, returns what the first run returned and leaves the
    profiles and the answers on record as the first run left them. *)
Theorem C7_retry_idempotent self email t ans sc time1 time2 ds :
  let r1 := update_assessment_transaction self email t ans sc (quiet time1) ds in
  let r2 := update_assessment_transaction self email t ans sc (quiet time2)
              (Db.store r1) in
  Db.returned r2 = Db.returned r1 /\
  students (Db.store r2) = students (Db.store r1) /\
  (forall who k, stored_score (Db.store r2) who k = stored_score (Db.store r1) who k) /\
  (forall key k, stored_answer (Db.store r2) key k = stored_answer (Db.store r1) key k).
Proof.
  intros r1 r2.
  assert (Db.returned r2 = Db.returned r1 /\
          students (Db.store r2) = students (Db.store r1) /\
          (forall key k,
             stored_answer (Db.store r2) key k = stored_answer (Db.store r1) key k))
    as (Hr & Hst & Hans).
  { pose proof (txn_quiet self email t ans sc time1 ds) as H1.
    pose proof (txn_quiet self email t ans sc time2 (Db.store r1)) as H2.
    fold r1 in H1, H2. fold r2 in H2. cbv zeta in H1, H2.
    destruct (students ds !! email) as [st|] eqn:Hst.
    - destruct H1 as [Hr1 Hs1].
      destruct (store_score (with_user_id self st) t sc) as [[st' res]|e] eqn:Hsc.
      + assert (user_id st' = Some (effective_user_id self st)) as Hu
          by (by rewrite (store_score_user_id _ _ _ _ _ Hsc)).
        rewrite Hs1 in H2 |- *. unfold committed at 1 in H2. cbn in H2.
        rewrite lookup_insert_eq in H2.
        rewrite (with_user_id_fixed _ _ _ Hu), (store_score_idem _ _ _ _ _ Hsc) in H2.
        destruct H2 as [Hr2 Hs2]. rewrite Hr2, Hr1, Hs2.
        split; [done|]. split.
        * unfold committed. cbn. apply insert_insert_eq.
        * intros key k. apply stored_answer_resubmitted.
          by apply effective_user_id_stable.
      + rewrite Hs1, Hst, Hsc in H2. destruct H2 as [Hr2 Hs2].
        by rewrite Hr2, Hr1, Hs2, Hs1.
    - destruct H1 as [Hr1 Hs1]. rewrite Hs1, Hst in H2. destruct H2 as [Hr2 Hs2].
      by rewrite Hr2, Hr1, Hs2, Hs1. }
  repeat split; try done.
  intros who k. unfold stored_score. by rewrite Hst.
Qed.

(** ** What a submission leaves alone *)

Lemma txn_frame self email t ans sc env ds who k :
  k <> t ->
  k <> "overall_score" \/ (t <> "Fin") ->
  stored_score (Db.store (update_assessment_transaction self email t ans sc env ds)) who k
  = stored_score ds who k.
Proof.
  intros Hk Hov.
  destruct (decide (who = email)) as [->|Hwho]; [|by apply txn_scores_other].
  destruct (Db.returned (update_assessment_transaction self email t ans sc env ds))
    as [[st' res]|e] eqn:Hr.
  - apply txn_ok_scores in Hr as (st & Hst & Hsc & Hold & Hnew).
    rewrite Hnew, Hold. destruct (decide (t = "Fin")) as [->|Hne].
    + destruct Hov as [Hov|]; [|done]. by eapply store_score_frame.
    + rewrite store_score_other in Hsc by done. injection Hsc as <- _.
      by apply get_set_score_ne.
  - by apply txn_raise in Hr as (-> & _).
Qed.

(** C8, as stated, fails: a submission whose assessment type is the key
    "overall_score" itself is no "Fin" submission and rewrites the overall
    score by the max rule. *)
Lemma C8_counterexample :
  let ds := store_with {[ "Fin" := 50; "overall_score" := 35 ]} in
  let r := update_assessment_transaction alice_handler alice "overall_score" (JList []) 99
             (quiet 0) ds in
  "overall_score" <> "Fin" /\
  is_ok (Db.returned r) = true /\
  stored_score ds alice "overall_score" = Some 35 /\
  stored_score (Db.store r) alice "overall_score" = Some 99.
Proof. intros ds r. split; [discriminate|]. vm_compute. repeat split; reflexivity. Qed.

(** C8, amended: a submission whose assessment type is neither "Fin" nor
    the key "overall_score" itself, a "Mid" after a "Fin" included, leaves
    the overall score on record as it was; and every submission leaves all
    score entries other than the one of its type and "overall_score" as
    they were, for every learner. *)
Theorem C8_overall_score_only_on_final self email t ans sc env ds :
  let r := update_assessment_transaction self email t ans sc env ds in
  (t <> "Fin" -> t <> "overall_score" ->
     forall who, stored_score (Db.store r) who "overall_score"
                 = stored_score ds who "overall_score") /\
  (forall who k, k <> t -> k <> "overall_score" ->
     stored_score (Db.store r) who k = stored_score ds who k).
Proof.
  intros r. split.
  - intros Hfin Hov who. apply txn_frame; [done | by right].
  - intros who k Hk Hov. apply txn_frame; [done | by left].
Qed.

Lemma C8_witness :
  let ds := store_with {[ "Fin" := 90; "overall_score" := 63 ]} in
  let r := update_assessment_transaction alice_handler alice "Mid" (JList []) 100
             (quiet 0) ds in
  stored_score (Db.store r) alice "overall_score" = Some 63 /\
  stored_score (Db.store r) alice "Fin" = Some 90.
Proof.
  intros ds r.
  destruct (C8_overall_score_only_on_final alice_handler alice "Mid" (JList []) 100
              (quiet 0) ds) as [Hov Hother].
  split.
  - rewrite Hov; [vm_compute; reflexivity | discriminate | discriminate].
  - rewrite Hother; [vm_compute; reflexivity | discriminate | discriminate].
Defined.

(** ** All or nothing *)

(** C9: a submission whose transaction raises, whichever of its datastore
    calls fails, the commit included, leaves the datastore as it was; a
    submission that returns has written the profile and the answers record
    together.  A failure of any of the six calls makes the transaction
    raise. *)
Theorem C9_all_or_nothing self email t ans sc env ds :
  let r := update_assessment_transaction self email t ans sc env ds in
  (forall e, Db.returned r = Raise e -> Db.store r = ds) /\
  (forall st' res, Db.returned r = Ok (st', res) ->
     exists st,
       students ds !! email = Some st /\
       students (Db.store r) = <[email := st']> (students ds) /\
       stored_score (Db.store r) email t = Some (update_rule (stored_score ds email t) sc) /\
       stored_answer (Db.store r) (effective_user_id self st) t = Some ans) /\
  (forall k, fail_at env = Some k -> (k < 6)%nat -> exists e, Db.returned r = Raise e).
Proof.
  cbv zeta. split; [|split].
  - intros e Hr. by apply txn_raise in Hr as (-> & _).
  - intros st' res Hr.
    pose proof (txn_ok_type _ _ _ _ _ _ _ _ _ Hr) as Hty.
    apply txn_ok in Hr as (st & Hst & Hsc & Hs & _).
    exists st. split; [done|]. split; [by rewrite Hs|]. split; [done|].
    rewrite Hs. apply stored_answer_committed.
  - intros k Hk Hlt.
    destruct (txn_cases self email t ans sc env ds)
      as [(e & Hr & _) | (st & st' & res & _ & _ & _ & _ & _ & Hge)]; [by exists e|].
    specialize (Hge k Hk). lia.
Qed.

Lemma C9_witness :
  let env := {| now := 0; fail_at := Some 3%nat |} in
  let r := update_assessment_transaction alice_handler alice "Mid" (JList []) 80
             env (store_with ∅) in
  Db.store r = store_with ∅.
Proof.
  intros env r.
  destruct (C9_all_or_nothing alice_handler alice "Mid" (JList []) 80 env (store_with ∅))
    as (Hraise & _ & Hfault).
  destruct (Hfault 3%nat) as [e He]; [reflexivity | lia |].
  exact (Hraise e He).
Defined.

(** ** The overall score over a run of submissions *)

Lemma score_le_refl a : score_le a a.
Proof. destruct a; cbn; [lia | done]. Qed.

Lemma score_le_trans a b c : score_le a b -> score_le b c -> score_le a c.
Proof. destruct a, b, c; cbn; try done; lia. Qed.

Lemma update_rule_nonneg existing s :
  (forall e, existing = Some e -> 0 <= e) -> 0 <= s ->
  0 <= update_rule existing s.
Proof.
  intros He Hs. destruct existing as [e|]; cbn; [|done].
  specialize (He e eq_refl). lia.
Qed.

Lemma default_nonneg (existing : option Z) :
  (forall e, existing = Some e -> 0 <= e) -> 0 <= default 0 existing.
Proof. intros He. destruct existing as [e|]; cbn; [by apply He | lia]. Qed.

Lemma default_le_update_rule (existing : option Z) s :
  0 <= s -> default 0 existing <= update_rule existing s.
Proof. destruct existing; cbn; lia. Qed.

Lemma store_score_consistent st t s st' res :
  consistent st -> t <> "overall_score" -> 0 <= s ->
  store_score st t s = Ok (st', res) ->
  consistent st' /\
  score_le (get_score st "overall_score") (get_score st' "overall_score").
Proof.
  intros (Hmid & Hfin & Hov) Ht Hs Hsc.
  pose proof (default_nonneg _ Hmid) as Hm0.
  destruct (decide (t = "Fin")) as [->|Hnf].
  - apply store_score_fin in Hsc as (v & Hv & Hf' & Hm' & Hov' & _).
    pose proof (update_rule_nonneg _ _ Hfin Hs) as Hp'.
    split.
    + split; [|split].
      * intros m. rewrite Hm'. apply Hmid.
      * intros f. rewrite Hf'. by intros [= <-].
      * intros ov. rewrite Hov', Hf', Hm'. intros [= <-].
        exists (default 0 (get_score st "Mid")), (update_rule (get_score st "Fin") s),
               (update_rule (get_score st "Fin") s).
        split; [done|]. split; [lia|]. split; [lia|done].
    + rewrite Hov'. destruct (get_score st "overall_score") as [ov|] eqn:Hold; [|done].
      destruct (Hov ov eq_refl) as (m0 & f0 & f & Hf & Hm0' & Hf0 & Hv0). cbn.
      apply (overall_formula_mono m0 f0 (default 0 (get_score st "Mid"))
               (update_rule (get_score st "Fin") s) ov v); [done| |done|done].
      rewrite Hf. cbn. lia.
  - rewrite store_score_other in Hsc by done. injection Hsc as <- _.
    rewrite (get_set_score_ne _ t "overall_score") by done.
    split; [|apply score_le_refl].
    destruct (decide (t = "Mid")) as [->|Hnm].
    + split; [|split].
      * intros m. rewrite get_set_score_eq. intros [= <-].
        by apply update_rule_nonneg.
      * intros f. rewrite get_set_score_ne by done. apply Hfin.
      * intros ov. rewrite get_set_score_eq, !get_set_score_ne by done. cbn.
        intros (m0 & f0 & f & Hf & Hm0' & Hf0 & Hv0)%Hov.
        exists m0, f0, f. split; [done|]. split; [|done].
        pose proof (default_le_update_rule (get_score st "Mid") s Hs). lia.
    + split; [|split].
      * intros m. rewrite get_set_score_ne by done. apply Hmid.
      * intros f. rewrite get_set_score_ne by done. apply Hfin.
      * intros ov. rewrite !get_set_score_ne by done. apply Hov.
Qed.

Lemma submit_consistent self email ds sub :
  (forall st, students ds !! email = Some st -> consistent st) ->
  sub_type sub <> "overall_score" -> 0 <= sub_score sub ->
  (forall st, students (submit self email ds sub) !! email = Some st -> consistent st) /\
  score_le (stored_score ds email "overall_score")
           (stored_score (submit self email ds sub) email "overall_score").
Proof.
  intros Hc Ht Hs. unfold submit.
  destruct (Db.returned (update_assessment_transaction self email (sub_type sub)
                           (sub_answers sub) (sub_score sub) (sub_env sub) ds))
    as [[st' res]|e] eqn:Hr.
  - apply txn_ok in Hr as (st & Hst & Hsc & -> & _).
    assert (consistent (with_user_id self st)) as Hcst by exact (Hc st Hst).
    destruct (store_score_consistent _ _ _ _ _ Hcst Ht Hs Hsc) as [Hc' Hle].
    split.
    + intros st0. unfold committed; cbn. rewrite lookup_insert_eq. by intros [= <-].
    + by rewrite stored_score_committed, (stored_score_lookup _ _ _ _ Hst).
  - apply txn_raise in Hr as (-> & _). split; [done | apply score_le_refl].
Qed.

Lemma submit_all_consistent self email subs ds :
  (forall st, students ds !! email = Some st -> consistent st) ->
  Forall (fun sub => sub_type sub <> "overall_score" /\ 0 <= sub_score sub) subs ->
  (forall st, students (submit_all self email subs ds) !! email = Some st -> consistent st) /\
  score_le (stored_score ds email "overall_score")
           (stored_score (submit_all self email subs ds) email "overall_score").
Proof.
  intros Hc Hsubs. revert ds Hc.
  induction Hsubs as [|sub subs [Ht Hs] _ IH]; intros ds Hc.
  - split; [done | apply score_le_refl].
  - cbn. destruct (submit_consistent self email ds sub Hc Ht Hs) as [Hc1 Hle1].
    destruct (IH _ Hc1) as [Hc2 Hle2]. split; [done|].
    by eapply score_le_trans.
Qed.

Lemma empty_profile_consistent st : scores st = ∅ -> consistent st.
Proof.
  intros He. unfold consistent, get_score. rewrite He.
  split; [|split]; intros z; by rewrite lookup_empty.
Qed.

(** C10, as stated, fails, in two ways.  A mid-course score below zero,
    submitted after a final assessment, lowers the mid-course input of the
    formula from 0 (absent) to that score, and the next final submission
    lowers the overall score.  And a submission whose assessment type is the
    key "overall_score" raises that entry, which the next final submission
    overwrites with the formula's value. *)
Lemma C10_counterexample :
  let ds1 := submit alice_handler alice (store_with ∅) (submission "Fin" 100) in
  let ds2 := submit alice_handler alice ds1 (submission "Mid" (-50)) in
  let ds3 := submit alice_handler alice ds2 (submission "Fin" 100) in
  let ds1' := submit alice_handler alice (store_with ∅) (submission "overall_score" 100) in
  let ds2' := submit alice_handler alice ds1' (submission "Fin" 10) in
  (stored_score ds1 alice "overall_score" = Some 70 /\
   stored_score ds3 alice "overall_score" = Some 55) /\
  (stored_score ds1' alice "overall_score" = Some 100 /\
   stored_score ds2' alice "overall_score" = Some 7).
Proof. vm_compute. repeat split; reflexivity. Qed.

(** C10, amended: for a learner whose profile starts without scores, over
    any run of submissions whose assessment types differ from the key
    "overall_score" and whose scores are not negative, whatever their
    outcomes, the overall score on record never decreases and, once there,
    stays: what is on record after a part of the run is at most what is on
    record after the whole run. *)
Theorem C10_overall_score_monotone self email st subs1 subs2 ds :
  students ds !! email = Some st ->
  scores st = ∅ ->
  Forall (fun sub => sub_type sub <> "overall_score" /\ 0 <= sub_score sub)
    (subs1 ++ subs2) ->
  score_le (stored_score (submit_all self email subs1 ds) email "overall_score")
           (stored_score (submit_all self email (subs1 ++ subs2) ds) email "overall_score").
Proof.
  intros Hst He [H1 H2]%Forall_app.
  assert (forall st0, students ds !! email = Some st0 -> consistent st0) as Hc.
  { intros st0 Hst0. apply empty_profile_consistent. congruence. }
  destruct (submit_all_consistent self email subs1 ds Hc H1) as [Hc1 _].
  unfold submit_all at 2. rewrite fold_left_app.
  by apply submit_all_consistent.
Qed.

Lemma C10_witness :
  let subs1 := [submission "Fin" 90; submission "Mid" 80] in
  let subs2 := [submission "Fin" 60; submission "Mid" 100; submission "Fin" 250] in
  stored_score (submit_all alice_handler alice subs1 (store_with ∅)) alice "overall_score"
    = Some 62 /\
  stored_score (submit_all alice_handler alice (subs1 ++ subs2) (store_with ∅)) alice
    "overall_score" = Some 205 /\
  score_le (Some 62) (Some 205).
Proof.
  intros subs1 subs2.
  split; [vm_compute; reflexivity|]. split; [vm_compute; reflexivity|].
  exact (C10_overall_score_monotone alice_handler alice
           {| user_id := Some "uid-alice"; scores := ∅ |} subs1 subs2 (store_with ∅)
           ltac:(vm_compute; reflexivity) eq_refl
           ltac:(repeat constructor; (discriminate || (vm_compute; discriminate)))).
Defined.


(** * Further properties of the code *)

(** ** Scores over runs of submissions of any types *)

Lemma score_le_update_rule existing s : score_le existing (Some (update_rule existing s)).
Proof. destruct existing; cbn; lia. Qed.

Lemma txn_score_le self email t ans sc env ds who k :
  k <> "overall_score" ->
  score_le (stored_score ds who k)
    (stored_score (Db.store (update_assessment_transaction self email t ans sc env ds))
       who k).
Proof.
  intros Hk. destruct (decide (k = t)) as [->|Hkt].
  - destruct (decide (who = email)) as [->|Hwho].
    + destruct (Db.returned (update_assessment_transaction self email t ans sc env ds))
        as [[st' res]|e] eqn:Hr.
      * rewrite (txn_ok_type _ _ _ _ _ _ _ _ _ Hr). apply score_le_update_rule.
      * apply txn_raise in Hr as (-> & _). apply score_le_refl.
    + rewrite txn_scores_other by done. apply score_le_refl.
  - rewrite txn_frame; [apply score_le_refl | done | by left].
Qed.

Lemma perform_all_score_le calls ds who k :
  k <> "overall_score" ->
  score_le (stored_score ds who k) (stored_score (perform_all calls ds) who k).
Proof.
  intros Hk. revert ds. induction calls as [|c calls IH]; intros ds.
  - apply score_le_refl.
  - cbn. eapply score_le_trans; [|apply IH]. by apply txn_score_le.
Qed.

Lemma perform_all_app l1 l2 ds :
  perform_all (l1 ++ l2) ds = perform_all l2 (perform_all l1 ds).
Proof. unfold perform_all. apply fold_left_app. Qed.

(** X1: over any run of submissions, by any learners, of any assessment
    types and with any outcomes, the score on record of every learner for
    every key other than "overall_score" never decreases and, once there,
    stays. *)
Theorem X1_scores_never_decrease calls1 calls2 ds who k :
  k <> "overall_score" ->
  score_le (stored_score (perform_all calls1 ds) who k)
           (stored_score (perform_all (calls1 ++ calls2) ds) who k).
Proof.
  intros Hk. rewrite perform_all_app. by apply perform_all_score_le.
Qed.

Lemma X1_witness :
  let calls1 := [call alice_handler alice "Mid" (JStr "a") 90] in
  let calls2 := [call alice_handler alice "Fin" (JStr "b") 50;
                 call bob_handler bob "Mid" (JStr "c") 99;
                 call alice_handler alice "Mid" (JStr "d") 10] in
  stored_score (perform_all calls1 two_learners) alice "Mid" = Some 90 /\
  stored_score (perform_all (calls1 ++ calls2) two_learners) alice "Mid" = Some 90 /\
  score_le (Some 90) (Some 90).
Proof.
  intros calls1 calls2.
  split; [vm_compute; reflexivity|]. split; [vm_compute; reflexivity|].
  exact (X1_scores_never_decrease calls1 calls2 two_learners alice "Mid"
           ltac:(discriminate)).
Defined.

(** X2: a score that a submission has committed stays a lower bound: after
    a submission of a type other than "overall_score" has returned, the
    score on record for that learner and type is at least the submitted
    score, whatever is submitted afterwards by anyone. *)
Theorem X2_committed_score_is_lower_bound c calls ds :
  sub_type (call_sub c) <> "overall_score" ->
  is_ok (call_result ds c) = true ->
  exists v,
    stored_score (perform_all (c :: calls) ds) (call_email c) (sub_type (call_sub c))
      = Some v /\
    sub_score (call_sub c) <= v.
Proof.
  intros Ht Hok.
  pose proof (perform_all_score_le calls (perform ds c) (call_email c)
                (sub_type (call_sub c)) Ht) as Hle.
  unfold call_result in Hok.
  destruct (Db.returned _) as [[st' res]|e] eqn:Hr in Hok; [|done].
  apply txn_ok_type in Hr. unfold perform, submit in Hle. rewrite Hr in Hle.
  change (perform_all (c :: calls) ds) with (perform_all calls (perform ds c)).
  unfold perform, submit.
  destruct (stored_score (perform_all calls _) _ _) as [v|]; [|done].
  exists v. split; [done|]. cbn in Hle.
  pose proof (update_rule_ge (stored_score ds (call_email c) (sub_type (call_sub c)))
                (sub_score (call_sub c))). lia.
Qed.

Lemma X2_witness :
  exists v,
    stored_score
      (perform_all [call alice_handler alice "Quiz" (JStr "a") 70;
                    call alice_handler alice "Quiz" (JStr "b") 20;
                    call bob_handler bob "Quiz" (JStr "c") 5] two_learners)
      alice "Quiz" = Some v /\
    70 <= v.
Proof.
  apply (X2_committed_score_is_lower_bound
           (call alice_handler alice "Quiz" (JStr "a") 70)
           [call alice_handler alice "Quiz" (JStr "b") 20;
            call bob_handler bob "Quiz" (JStr "c") 5] two_learners).
  - discriminate.
  - vm_compute. reflexivity.
Defined.

(** ** What one submission writes *)

Lemma stored_answer_committed_other self email t ans env ds st st' key k :
  k <> t ->
  stored_answer (committed self email t ans env ds st st') key k = stored_answer ds key k.
Proof.
  intros Hk. unfold stored_answer, committed, submitted_answers, set_answer. cbn.
  destruct (decide (key = effective_user_id self st)) as [->|Hkey].
  - rewrite lookup_insert_eq. cbn. rewrite lookup_insert_ne by done.
    by destruct (answers_of ds !! effective_user_id self st).
  - by rewrite lookup_insert_ne.
Qed.

(** X3: a submission writes one profile and one answers record and, in
    that record, one entry: the profiles of all other learners, the answers
    records under all keys other than the learner's user id, and the answers
    on record for all other assessment types are as they were, whatever the
    outcome. *)
Theorem X3_submission_frame self email t ans sc env ds :
  let r := update_assessment_transaction self email t ans sc env ds in
  (forall who, who <> email -> students (Db.store r) !! who = students ds !! who) /\
  (forall key,
     (forall st, students ds !! email = Some st -> key <> effective_user_id self st) ->
     answers_of (Db.store r) !! key = answers_of ds !! key) /\
  (forall key k, k <> t -> stored_answer (Db.store r) key k = stored_answer ds key k).
Proof.
  cbv zeta.
  destruct (Db.returned (update_assessment_transaction self email t ans sc env ds))
    as [[st' res]|e] eqn:Hr.
  - apply txn_ok in Hr as (st & Hst & _ & -> & _). split; [|split].
    + intros who Hwho. unfold committed; cbn. by rewrite lookup_insert_ne.
    + intros key Hkey. unfold committed; cbn.
      rewrite lookup_insert_ne; [done|]. intros <-. by apply (Hkey st).
    + intros key k Hk. by apply stored_answer_committed_other.
  - apply txn_raise in Hr as (-> & _). done.
Qed.

Lemma X3_witness :
  let r := update_assessment_transaction bob_handler bob "Fin" (JStr "new") 75
             (quiet 9) two_learners in
  students (Db.store r) !! alice = students two_learners !! alice /\
  answers_of (Db.store r) !! "uid-alice" = answers_of two_learners !! "uid-alice" /\
  stored_answer (Db.store r) "uid-bob" "Mid" = stored_answer two_learners "uid-bob" "Mid".
Proof.
  intros r.
  destruct (X3_submission_frame bob_handler bob "Fin" (JStr "new") 75 (quiet 9)
              two_learners) as (Hp & Ha & Hk).
  split; [apply Hp; discriminate|]. split.
  - apply Ha. intros st Hst. vm_compute in Hst. injection Hst as <-.
    vm_compute. discriminate.
  - apply Hk. discriminate.
Defined.

(** X4: a submission that returns leaves, under the learner's user id, an
    answers record stamped with the time of the submission and holding the
    entries of the record that was there, the one of the submitted type
    replaced by the payload; when there was no record, one is created that
    holds that payload alone. *)
Theorem X4_answers_record self email t ans sc env ds st' res :
  let r := update_assessment_transaction self email t ans sc env ds in
  Db.returned r = Ok (st', res) ->
  exists st,
    students ds !! email = Some st /\
    answers_of (Db.store r) !! effective_user_id self st
    = Some {| updated_on := Some (now env);
              data := <[t := ans]>
                        (match answers_of ds !! effective_user_id self st with
                         | Some a => data a
                         | None => ∅
                         end) |} /\
    (answers_of ds !! effective_user_id self st = None ->
     answers_of (Db.store r) !! effective_user_id self st
     = Some {| updated_on := Some (now env); data := {[ t := ans ]} |}).
Proof.
  intros r (st & Hst & _ & Hs & _)%txn_ok. exists st. split; [done|].
  fold r in Hs. rewrite Hs. unfold committed; cbn. rewrite lookup_insert_eq.
  unfold submitted_answers, set_answer. cbn.
  destruct (answers_of ds !! effective_user_id self st) as [a|]; cbn; [by split|].
  split; [done|]. intros _. by rewrite insert_empty.
Qed.

Lemma X4_witness :
  let r := update_assessment_transaction alice_handler alice "Fin" (JStr "new") 75
             (quiet 9) two_learners in
  answers_of (Db.store r) !! "uid-alice"
  = Some {| updated_on := Some 9;
            data := <["Fin" := JStr "new"]> {[ "Mid" := JStr "old" ]} |}.
Proof.
  intros r.
  assert (Db.returned r
          = Ok ({| user_id := Some "uid-alice";
                   scores := <["overall_score" := 76]>
                               (<["Fin" := 75]> {[ "Mid" := 80 ]}) |},
                Some "pass")) as Hr
    by (vm_compute; reflexivity).
  destruct (X4_answers_record alice_handler alice "Fin" (JStr "new") 75 (quiet 9)
              two_learners _ _ Hr) as (st & Hst & Ha & _).
  vm_compute in Hst. injection Hst as <-. exact Ha.
Defined.

(** X5: the repair of old profiles.  A submission that returns stores the
    profile it returns; the user id of a profile that had one is kept, and a
    profile without one (none, or the empty string) gets the user id of the
    user who is logged in. *)
Theorem X5_user_id_repair self email t ans sc env ds st' res :
  let r := update_assessment_transaction self email t ans sc env ds in
  Db.returned r = Ok (st', res) ->
  exists st,
    students ds !! email = Some st /\
    students (Db.store r) !! email = Some st' /\
    (user_id_unset (user_id st) = false -> user_id st' = user_id st) /\
    (user_id_unset (user_id st) = true -> user_id st' = Some (handler_user_id self)).
Proof.
  intros r Hr. apply txn_ok_answers in Hr as (st & Hst & Hu & Hst' & _).
  exists st. split; [done|]. split; [done|].
  rewrite Hu. unfold effective_user_id.
  split; intros Hunset; rewrite Hunset; [|done].
  destruct (user_id st) as [u|]; [done|discriminate].
Qed.

Lemma X5_witness :
  let r := update_assessment_transaction bob_handler bob "Mid" (JStr "x") 40
             (quiet 9) two_learners in
  exists st', students (Db.store r) !! bob = Some st' /\ user_id st' = Some "uid-bob".
Proof.
  intros r.
  assert (Db.returned r
          = Ok ({| user_id := Some "uid-bob"; scores := {[ "Mid" := 40 ]} |}, None))
    as Hr by (vm_compute; reflexivity).
  destruct (X5_user_id_repair bob_handler bob "Mid" (JStr "x") 40 (quiet 9)
              two_learners _ _ Hr) as (st & Hst & Hst' & _ & Hfill).
  eexists. split; [exact Hst'|].
  vm_compute in Hst. injection Hst as <-. apply Hfill. reflexivity.
Defined.

(** ** The event log *)

Lemma perform_events ds c :
  events (perform ds c)
  = events ds ++ (if is_ok (call_result ds c) then [call_event c] else []).
Proof.
  unfold perform, submit, call_result, call_event.
  destruct (Db.returned _) as [[st' res]|e] eqn:Hr.
  - apply txn_ok in Hr as (st & _ & _ & -> & _). done.
  - apply txn_raise in Hr as (-> & _). cbn. by rewrite app_nil_r.
Qed.

(** X6: the event log is append-only.  Over any run of submissions the
    events that were there stay, in place; every event added is the
    "submit-assessment" event of one of the submissions, with its type,
    payload and handler tag; and no more events are added than there are
    submissions. *)
Theorem X6_event_log_append_only calls ds :
  exists added,
    events (perform_all calls ds) = events ds ++ added /\
    (length added <= length calls)%nat /\
    Forall (fun ev =>
              source ev = "submit-assessment" /\
              ev_location (event_data ev) = "AnswerHandler" /\
              exists c, c ∈ calls /\
                ev = call_event c /\
                ev_type (event_data ev) = "assessment-" +:+ sub_type (call_sub c) /\
                ev_values (event_data ev) = sub_answers (call_sub c)) added.
Proof.
  revert ds. induction calls as [|c calls IH]; intros ds.
  - exists []. cbn. rewrite app_nil_r. split; [done|]. split; [done|constructor].
  - destruct (IH (perform ds c)) as (added & Hev & Hlen & Hall).
    change (perform_all (c :: calls) ds) with (perform_all calls (perform ds c)).
    rewrite Hev, perform_events, <- app_assoc.
    eexists. split; [reflexivity|]. split.
    + rewrite length_app. destruct (is_ok (call_result ds c)); cbn; lia.
    + apply Forall_app. split.
      * destruct (is_ok (call_result ds c)); [|constructor].
        constructor; [|constructor]. split; [done|]. split; [done|].
        exists c. split; [apply elem_of_cons; by left|done].
      * eapply Forall_impl; [exact Hall|]. cbn.
        intros ev (Hs & Hl & c' & Hc' & Hrest). split; [done|]. split; [done|].
        exists c'. split; [apply elem_of_cons; by right|done].
Qed.

(** ** The request handler *)

Section PostProperties.

Variable loads : string -> outcome json.
Variable int_round_float : string -> outcome Z.

(** What [post] hands to the transaction, when it gets that far. *)
Lemma post_cases self req env ds :
  (exists o, post loads int_round_float self req env ds = (o, ds) /\
             forall conf, o <> Ok (Some conf)) \/
  (exists email answers score st' res,
     req_enrolled req = Some email /\ req_xsrf_ok req = true /\
     req_assessment_type req <> "" /\
     (if decide (req_answers req = "") then Ok (JList []) else loads (req_answers req))
       = Ok answers /\
     int_round_float (req_score req) = Ok score /\
     Db.returned (update_assessment_transaction self email (req_assessment_type req)
                    answers score env ds) = Ok (st', res) /\
     post loads int_round_float self req env ds
     = (Ok (Some {| tv_assessment := req_assessment_type req;
                    tv_result := res;
                    tv_student_score := get_score st' "overall_score" |}),
        Db.store (update_assessment_transaction self email (req_assessment_type req)
                    answers score env ds))).
Proof.
  unfold post.
  destruct (req_enrolled req) as [email|]; [|left; eexists; split; [done|done]].
  destruct (req_xsrf_ok req); cbn [negb]; [|left; eexists; split; [done|done]].
  destruct (decide (req_assessment_type req = "")) as [|Ht];
    [left; eexists; split; [done|done]|].
  destruct (if decide (req_answers req = "") then Ok (JList []) else loads (req_answers req))
    as [answers|e] eqn:Hans; [|left; eexists; split; [done|done]].
  destruct (int_round_float (req_score req)) as [score|e] eqn:Hsc;
    [|left; eexists; split; [done|done]].
  destruct (Db.returned (update_assessment_transaction self email
                           (req_assessment_type req) answers score env ds))
    as [[st' res]|e] eqn:Hr.
  - right. exists email, answers, score, st', res. done.
  - left. pose proof Hr as Hr'. apply txn_raise in Hr' as (Hs & _). rewrite Hs.
    eexists. split; [done|done].
Qed.


(** X8: the confirmation page shows what is on record.  The score it shows
    is the overall score on record after the request; the result is the
    verdict on that score for a "Fin" request, and there is none for any
    other type, for which the score shown is the overall score that was on
    record before, unless the type is the key "overall_score" itself. *)
Theorem X8_post_confirmation self req env ds email conf ds' :
  req_enrolled req = Some email ->
  post loads int_round_float self req env ds = (Ok (Some conf), ds') ->
  tv_assessment conf = req_assessment_type req /\
  tv_student_score conf = stored_score ds' email "overall_score" /\
  (req_assessment_type req = "Fin" ->
     exists overall,
       tv_student_score conf = Some overall /\
       tv_result conf = Some (if 70 <=? overall then "pass" else "fail")) /\
  (req_assessment_type req <> "Fin" ->
     tv_result conf = None /\
     (req_assessment_type req <> "overall_score" ->
      tv_student_score conf = stored_score ds email "overall_score")).
Proof.
  intros He Hp.
  destruct (post_cases self req env ds)
    as [(o & Hp' & Hno)|(email' & answers & score & st' & res & He' & _ & _ & _ & _ & Hr & Hp')];
    rewrite Hp' in Hp.
  - injection Hp as -> _. by destruct (Hno conf).
  - assert (email' = email) as -> by congruence.
    injection Hp as <- <-. cbn.
    pose proof (txn_ok_scores _ _ _ _ _ _ _ _ _ Hr) as (st & Hst & Hsc & Hold & Hnew).
    split; [done|]. split; [by rewrite Hnew|]. split.
    + intros Ht. rewrite Ht in Hsc.
      apply store_score_fin in Hsc as (v & _ & _ & _ & Hov & ->). by exists v.
    + intros Ht. rewrite store_score_other in Hsc by done. injection Hsc as <- <-.
      split; [done|]. intros Hov. rewrite get_set_score_ne by done. by rewrite Hold.
Qed.

(** X9: the answers a request puts on record are what the JSON decoder
    gives on the text of the answers, and the empty list when that text is
    empty, in which case the decoder is not consulted. *)
Theorem X9_post_answers self req env ds email conf ds' :
  req_enrolled req = Some email ->
  post loads int_round_float self req env ds = (Ok (Some conf), ds') ->
  exists st payload,
    students ds !! email = Some st /\
    stored_answer ds' (effective_user_id self st) (req_assessment_type req) = Some payload /\
    (req_answers req = "" -> payload = JList []) /\
    (req_answers req <> "" -> loads (req_answers req) = Ok payload).
Proof.
  intros He Hp.
  destruct (post_cases self req env ds)
    as [(o & Hp' & Hno)|(email' & answers & score & st' & res & He' & _ & _ & Hans & _ & Hr & Hp')];
    rewrite Hp' in Hp.
  - injection Hp as -> _. by destruct (Hno conf).
  - assert (email' = email) as -> by congruence.
    injection Hp as _ <-.
    apply txn_ok_answers in Hr as (st & Hst & _ & _ & Ha).
    exists st, answers. split; [done|]. split; [done|].
    destruct (decide (req_answers req = "")) as [Hempty|Hne].
    + split; [intros _; congruence | done].
    + split; [done | by intros _].
Qed.


End PostProperties.


Lemma X8_witness :
  let p := post sample_loads sample_round alice_handler (request "Fin" "a" "90")
             (quiet 0) (store_with {[ "Mid" := 80 ]}) in
  stored_score (snd p) alice "overall_score" = Some 87.
Proof.
  intros p.
  assert (p = (Ok (Some {| tv_assessment := "Fin"; tv_result := Some "pass";
                           tv_student_score := Some 87 |}), snd p)) as Hp
    by (vm_compute; reflexivity).
  destruct (X8_post_confirmation sample_loads sample_round alice_handler
              (request "Fin" "a" "90") (quiet 0) (store_with {[ "Mid" := 80 ]})
              alice {| tv_assessment := "Fin"; tv_result := Some "pass";
                       tv_student_score := Some 87 |} (snd p) eq_refl Hp)
    as (_ & Hscore & _).
  symmetry. exact Hscore.
Defined.

Lemma X9_witness :
  let p := post sample_loads sample_round alice_handler (request "Mid" "" "90")
             (quiet 0) (store_with ∅) in
  stored_answer (snd p) "uid-alice" "Mid" = Some (JList []).
Proof.
  intros p.
  assert (p = (Ok (Some {| tv_assessment := "Mid"; tv_result := None;
                           tv_student_score := None |}), snd p)) as Hp
    by (vm_compute; reflexivity).
  pose proof (X9_post_answers sample_loads sample_round alice_handler
                (request "Mid" "" "90") (quiet 0) (store_with ∅) alice) as H.
  destruct (H _ _ eq_refl Hp) as (st & payload & Hst & Ha & Hempty & _).
  vm_compute in Hst. injection Hst as <-.
  rewrite (Hempty eq_refl) in Ha. exact Ha.
Defined.


(** ** The formula and the verdict *)

Lemma overall_formula_nonneg m p v :
  0 <= m -> 0 <= p -> overall_formula m p = Ok v -> 0 <= v.
Proof.
  intros Hm Hp Hv.
  destruct (overall_formula_value m p v Hm Hp Hv)
    as (Ym & Yp & Xa & Ya & Xb & Yb & Ys & _ & _ & _ & _ & _ & _ & Hs & ->).
  apply Z.div_pos; [by eapply rounded_nonneg|].
  apply Z.pow_pos_nonneg; unfold scale; lia.
Qed.

(** X11: the overall score as the code computes it, in double precision
    and with truncation, is a natural number for natural scores and is
    monotone in the mid-course score and in the final score, for all natural
    scores for which the computation returns. *)
Theorem X11_formula_natural_and_monotone m p m' p' v v' :
  0 <= m <= m' -> 0 <= p <= p' ->
  overall_formula m p = Ok v -> overall_formula m' p' = Ok v' ->
  0 <= v <= v'.
Proof.
  intros Hm Hp Hv Hv'. split.
  - apply (overall_formula_nonneg m p); (done || lia).
  - by apply (overall_formula_mono m p m' p').
Qed.

Lemma X11_witness : 0 <= 69 <= 3500000000000000000000.
Proof.
  apply (X11_formula_natural_and_monotone 7 97 7 5000000000000000000000);
    [lia | lia | vm_compute; reflexivity | vm_compute; reflexivity].
Defined.

(** What a final submission that returns has computed. *)
Lemma txn_fin self email ans sc env ds st' res :
  Db.returned (update_assessment_transaction self email "Fin" ans sc env ds)
    = Ok (st', res) ->
  exists v,
    overall_formula (default 0 (stored_score ds email "Mid"))
      (update_rule (stored_score ds email "Fin") sc) = Ok v /\
    stored_score (Db.store (update_assessment_transaction self email "Fin" ans sc env ds))
      email "overall_score" = Some v /\
    res = Some (if 70 <=? v then "pass" else "fail").
Proof.
  intros (st & Hst & Hsc & Hold & Hnew)%txn_ok_scores.
  apply store_score_fin in Hsc as (v & Hv & _ & _ & Hov & Hres).
  exists v. rewrite !Hold, Hnew. done.
Qed.

(** X12: the overall score of two percentages is a percentage, and it
    exceeds neither the larger of the two scores nor the exact weighted
    mean. *)
Theorem X12_overall_score_is_a_percentage self email ans sc env ds st' res :
  let r := update_assessment_transaction self email "Fin" ans sc env ds in
  let mid := default 0 (stored_score ds email "Mid") in
  let post := update_rule (stored_score ds email "Fin") sc in
  Db.returned r = Ok (st', res) ->
  percent mid -> percent post ->
  exists overall,
    stored_score (Db.store r) email "overall_score" = Some overall /\
    percent overall /\
    overall <= Z.max mid post /\
    10 * overall <= 3 * mid + 7 * post.
Proof.
  intros r mid post Hr Hm Hp.
  apply txn_fin in Hr as (v & Hv & Hov & _). fold r in Hov. fold mid post in Hv.
  exists v. split; [done|].
  destruct (overall_formula_percent mid post Hm Hp) as (w & Hw & Hb).
  assert (w = v) as -> by congruence.
  pose proof (overall_formula_nonneg mid post v ltac:(unfold percent in Hm; lia)
                ltac:(unfold percent in Hp; lia) Hv) as H0.
  unfold percent in *.
  assert ((3 * mid + 7 * post) / 10 <= Z.max mid post)
    by (apply Z.div_le_upper_bound; lia).
  assert (10 * ((3 * mid + 7 * post) / 10) <= 3 * mid + 7 * post)
    by (apply Z.mul_div_le; lia).
  assert ((3 * mid + 7 * post) / 10 <= 100) by (apply Z.div_le_upper_bound; lia).
  lia.
Qed.

Lemma X12_witness :
  let r := update_assessment_transaction alice_handler alice "Fin" (JList []) 97
             (quiet 0) (store_with {[ "Mid" := 7 ]}) in
  exists overall,
    stored_score (Db.store r) alice "overall_score" = Some overall /\
    overall <= 97 /\ 10 * overall <= 700.
Proof.
  intros r.
  assert (Db.returned r
          = Ok ({| user_id := Some "uid-alice";
                   scores := <["overall_score" := 69]>
                               (<["Fin" := 97]> {[ "Mid" := 7 ]}) |},
                Some "fail")) as Hr
    by (vm_compute; reflexivity).
  destruct (X12_overall_score_is_a_percentage alice_handler alice (JList []) 97
              (quiet 0) (store_with {[ "Mid" := 7 ]}) _ _ Hr)
    as (overall & Hov & _ & Hmax & Hmean);
    [vm_compute; split; discriminate | vm_compute; split; discriminate |].
  exists overall. split; [exact Hov|]. split; [exact Hmax|exact Hmean].
Defined.

(** X13: the verdict in terms of the scores, for percentages.  A final
    submission passes only if [3 * mid + 7 * postCourse] is at least 700, and
    it does pass from 701 on; at exactly 700 the verdict depends on the
    rounding of the doubles.  A learner without a mid-course score on record
    passes exactly with the final score 100. *)
Theorem X13_verdict_in_terms_of_scores self email ans sc env ds st' res :
  let r := update_assessment_transaction self email "Fin" ans sc env ds in
  let mid := default 0 (stored_score ds email "Mid") in
  let post := update_rule (stored_score ds email "Fin") sc in
  Db.returned r = Ok (st', res) ->
  percent mid -> percent post ->
  (res = Some "pass" \/ res = Some "fail") /\
  (res = Some "pass" -> 700 <= 3 * mid + 7 * post) /\
  (701 <= 3 * mid + 7 * post -> res = Some "pass") /\
  (stored_score ds email "Mid" = None -> (res = Some "pass" <-> post = 100)).
Proof.
  intros r mid post Hr Hm Hp.
  apply txn_fin in Hr as (v & Hv & _ & ->). fold mid post in Hv.
  destruct (overall_formula_percent mid post Hm Hp) as (w & Hw & Hb).
  assert (w = v) as -> by congruence.
  assert (3 * mid + 7 * post < 700 -> v < 70) as Hlow.
  { intros Hs. assert ((3 * mid + 7 * post) / 10 < 70)
      by (apply Z.div_lt_upper_bound; lia). lia. }
  assert (701 <= 3 * mid + 7 * post -> 70 <= v) as Hhigh.
  { intros Hs. assert (70 <= (3 * mid + 7 * post - 1) / 10)
      by (apply Z.div_le_lower_bound; lia). lia. }
  split; [destruct (70 <=? v); auto|]. split; [|split].
  - destruct (Z.leb_spec 70 v); [|done]. intros _.
    destruct (decide (700 <= 3 * mid + 7 * post)); [done|]. lia.
  - intros Hs. destruct (Z.leb_spec 70 v); [done|]. specialize (Hhigh Hs). lia.
  - intros Hnone. unfold mid in *. rewrite Hnone in *. cbn [default] in *.
    unfold percent in Hp. split.
    + destruct (Z.leb_spec 70 v); [|done]. intros _.
      destruct (decide (700 <= 3 * 0 + 7 * post)); lia.
    + intros Hpost. rewrite Hpost in Hv.
      assert (v = 70) as -> by (vm_compute in Hv; congruence). done.
Qed.

Lemma X13_witness :
  let r := update_assessment_transaction alice_handler alice "Fin" (JList []) 100
             (quiet 0) (store_with ∅) in
  Db.returned r
  = Ok ({| user_id := Some "uid-alice";
           scores := <["overall_score" := 70]> {[ "Fin" := 100 ]} |}, Some "pass") /\
  (Some "pass" = Some "pass" <-> update_rule None 100 = 100).
Proof.
  intros r.
  assert (Db.returned r
          = Ok ({| user_id := Some "uid-alice";
                   scores := <["overall_score" := 70]> {[ "Fin" := 100 ]} |},
                Some "pass")) as Hr
    by (vm_compute; reflexivity).
  split; [exact Hr|].
  destruct (X13_verdict_in_terms_of_scores alice_handler alice (JList []) 100
              (quiet 0) (store_with ∅) _ _ Hr) as (_ & _ & _ & Hno);
    [vm_compute; split; discriminate | vm_compute; split; discriminate |].
  apply Hno. vm_compute. reflexivity.
Defined.

(** ** Verdicts and scores over a run *)

(** X14: a verdict "pass" is kept.  For a learner whose profile starts
    without scores, over submissions whose types differ from the key
    "overall_score" and whose scores are not negative: once the overall
    score on record is at least 70, every later final submission that
    returns has the result "pass". *)
Theorem X14_pass_is_kept self email st subs ans sc env ds overall st' res :
  students ds !! email = Some st ->
  scores st = ∅ ->
  Forall (fun sub => sub_type sub <> "overall_score" /\ 0 <= sub_score sub) subs ->
  0 <= sc ->
  stored_score (submit_all self email subs ds) email "overall_score" = Some overall ->
  70 <= overall ->
  Db.returned (update_assessment_transaction self email "Fin" ans sc env
                 (submit_all self email subs ds)) = Ok (st', res) ->
  res = Some "pass".
Proof.
  intros Hst He Hsubs Hsc Hov H70 Hr.
  assert (forall st0, students ds !! email = Some st0 -> consistent st0) as Hc.
  { intros st0 Hst0. apply empty_profile_consistent. congruence. }
  destruct (submit_all_consistent self email subs ds Hc Hsubs) as [Hc1 _].
  pose proof (txn_fin _ _ _ _ _ _ _ _ Hr) as (v & _ & Hnew & ->).
  apply txn_ok_scores in Hr as (st1 & Hst1 & Hss & Hold & Hnew').
  assert (consistent (with_user_id self st1)) as Hcst by exact (Hc1 st1 Hst1).
  assert ("Fin" <> "overall_score") as Hne by discriminate.
  destruct (store_score_consistent _ _ _ _ _ Hcst Hne Hsc Hss) as [_ Hle].
  rewrite <- Hold, Hov, <- Hnew', Hnew in Hle. cbn in Hle.
  destruct (Z.leb_spec 70 v); [done|lia].
Qed.

Lemma X14_witness :
  let subs := [submission "Mid" 80; submission "Fin" 90] in
  let r := update_assessment_transaction alice_handler alice "Fin" (JList []) 10
             (quiet 3) (submit_all alice_handler alice subs (store_with ∅)) in
  match Db.returned r with
  | Ok (_, res) => res = Some "pass"
  | Raise _ => False
  end.
Proof.
  intros subs r.
  assert (Db.returned r
          = Ok ({| user_id := Some "uid-alice";
                   scores := <["overall_score" := 87]>
                               (<["Fin" := 90]> {[ "Mid" := 80 ]}) |},
                Some "pass")) as Hr
    by (vm_compute; reflexivity).
  rewrite Hr.
  apply (X14_pass_is_kept alice_handler alice
           {| user_id := Some "uid-alice"; scores := ∅ |} subs (JList []) 10 (quiet 3)
           (store_with ∅) 87
           {| user_id := Some "uid-alice";
              scores := <["overall_score" := 87]>
                          (<["Fin" := 90]> {[ "Mid" := 80 ]}) |} (Some "pass"));
    [vm_compute; reflexivity | reflexivity | | lia
    | vm_compute; reflexivity | lia | exact Hr].
  repeat constructor; (discriminate || (vm_compute; discriminate)).
Defined.

(** A profile on which an overall score and a final score come together. *)
Lemma txn_overall_with_final self email t ans sc env ds :
  t <> "overall_score" ->
  (is_Some (stored_score ds email "overall_score")
   <-> is_Some (stored_score ds email "Fin")) ->
  (is_Some (stored_score
              (Db.store (update_assessment_transaction self email t ans sc env ds))
              email "overall_score")
   <-> is_Some (stored_score
                  (Db.store (update_assessment_transaction self email t ans sc env ds))
                  email "Fin")).
Proof.
  intros Ht Hiff.
  destruct (decide (t = "Fin")) as [->|Hfin].
  - destruct (Db.returned (update_assessment_transaction self email "Fin" ans sc env ds))
      as [[st' res]|e] eqn:Hr.
    + pose proof (txn_ok_type _ _ _ _ _ _ _ _ _ Hr) as Hf.
      apply txn_fin in Hr as (v & _ & Hov & _). rewrite Hov, Hf. by split.
    + by apply txn_raise in Hr as (-> & _).
  - rewrite !(txn_frame self email t ans sc env ds email); try done; by right.
Qed.

(** X15: an overall score is on record exactly when a final score is.  For
    a learner whose profile starts without scores this holds after any run
    of submissions whose types differ from the key "overall_score", whatever
    their scores and outcomes. *)
Theorem X15_overall_score_comes_with_final self email st subs ds :
  students ds !! email = Some st ->
  scores st = ∅ ->
  Forall (fun sub => sub_type sub <> "overall_score") subs ->
  (is_Some (stored_score (submit_all self email subs ds) email "overall_score")
   <-> is_Some (stored_score (submit_all self email subs ds) email "Fin")).
Proof.
  intros Hst He Hsubs.
  assert (is_Some (stored_score ds email "overall_score")
          <-> is_Some (stored_score ds email "Fin")) as H0.
  { rewrite !(stored_score_lookup _ _ _ _ Hst). unfold get_score. rewrite He.
    rewrite !lookup_empty. split; intros [? ?]; done. }
  clear Hst He. revert ds H0.
  induction Hsubs as [|sub subs Ht _ IH]; intros ds H0; [done|].
  cbn. apply IH. unfold submit. by apply txn_overall_with_final.
Qed.

Lemma X15_witness :
  let subs := [submission "Mid" 80; submission "Fin" 90; submission "Mid" 95] in
  is_Some (stored_score (submit_all alice_handler alice subs (store_with ∅)) alice
             "overall_score")
  <-> is_Some (stored_score (submit_all alice_handler alice subs (store_with ∅)) alice
                 "Fin").
Proof.
  intros subs.
  apply (X15_overall_score_comes_with_final alice_handler alice
           {| user_id := Some "uid-alice"; scores := ∅ |} subs (store_with ∅)).
  - vm_compute. reflexivity.
  - reflexivity.
  - repeat constructor; cbn; discriminate.
Defined.
